(** * The ECOS conic-solver interface of CVXPY

    A shallow embedding of [cvxpy/solver_interface/conic_solvers/ecos_conif.py]
    (class [ECOS]) and the properties of its status table, of
    [format_results], of [get_problem_data] and of [solve].

    Python dictionaries are finite maps over strings, the exceptions the
    module can raise are an error type, and the statements of a method are
    sequenced in a state-and-error monad whose state holds the dictionary
    objects that are shared by reference and the log of solver invocations. *)

From Stdlib Require Import ZArith PrimFloat SpecFloat FloatOps.
From stdpp Require Import gmap strings list fin_maps sorting.

#[local] Open Scope string_scope.
#[local] Open Scope nat_scope.
#[local] Open Scope list_scope.

(** ** Values *)

(** Modelled from the spec: the closed, solver-independent status enumeration
    ([s.OPTIMAL] ... [s.SOLVER_ERROR] of [cvxpy.settings], which is not part of
    the sources at hand). *)
Inductive status : Type :=
  | OPTIMAL
  | INFEASIBLE
  | UNBOUNDED
  | OPTIMAL_INACCURATE
  | INFEASIBLE_INACCURATE
  | UNBOUNDED_INACCURATE
  | SOLVER_ERROR.

#[global] Instance status_eq_dec : EqDecision status.
Proof. solve_decision. Defined.

(** Modelled from the spec: the "solution present" subset
    ([s.SOLUTION_PRESENT]). *)
Definition SOLUTION_PRESENT : list status := [OPTIMAL; OPTIMAL_INACCURATE].

(** The constraint classes named by the disabled [accepts] predicate, and the
    semidefinite class the solver is declared incapable of. *)
Inductive constr_class : Type := Eq | Ineq | SOC | Exp | SDP.

(** Addresses of dictionary objects that are shared by reference. *)
Definition loc : Type := positive.

(** The Python values that flow through the adapter. A [VDict] is a dictionary
    handed over by value (nothing else holds it); a [VRef] is a reference to a
    dictionary object of the store, which other owners may hold as well. *)
#[local] Unset Elimination Schemes.
Inductive value : Type :=
  | VNone
  | VBool (b : bool)
  | VInt (n : Z)
  | VFloat (f : float)
  | VStr (t : string)
  | VStatus (st : status)
  | VArr (a : list float)
  | VIdx (l : list nat)
  | VConstr (c : constr_class)
  | VList (l : list value)
  | VObj (o : positive)
  | VRef (l : loc)
  | VDict (d : gmap string value).
#[local] Set Elimination Schemes.

(** ** Exceptions and the monad *)

(** [ReferenceError l] is the outcome of the model on a store in which the
    address [l] names no object; the other constructors are the Python
    exceptions of the same name, and [Raised cls] is an exception of class
    [cls] raised by code outside the module. *)
Inductive exn : Type :=
  | NameError (name : string)
  | TypeError
  | KeyError (key : value)
  | IndexError
  | ImportError
  | ReferenceError (l : loc)
  | Raised (cls : string).

(** The class name under which an exception reaches the caller. *)
Definition exn_name (e : exn) : string :=
  match e with
  | NameError _ => "NameError"
  | TypeError => "TypeError"
  | KeyError _ => "KeyError"
  | IndexError => "IndexError"
  | ImportError => "ImportError"
  | ReferenceError _ => "ReferenceError"
  | Raised cls => cls
  end.

Inductive result (T : Type) : Type :=
  | Ok (x : T)
  | Err (e : exn).
Arguments Ok {T} x.
Arguments Err {T} e.

Definition rbind {T U : Type} (r : result T) (k : T → result U) : result U :=
  match r with
  | Ok x => k x
  | Err e => Err e
  end.

(** One invocation of the solver: positional and keyword arguments. *)
Record solver_call : Type := SolverCall {
  call_args : list value;
  call_kwargs : gmap string value
}.

Record state : Type := State {
  heap : gmap loc (gmap string value);
  solver_calls : list solver_call
}.

Definition M (T : Type) : Type := state → result T * state.

Definition ret {T : Type} (x : T) : M T := λ σ, (Ok x, σ).

Definition raise {T : Type} (e : exn) : M T := λ σ, (Err e, σ).

Definition bind {T U : Type} (c : M T) (k : T → M U) : M U :=
  λ σ, match c σ with
       | (Ok x, σ') => k x σ'
       | (Err e, σ') => (Err e, σ')
       end.

Definition lift {T : Type} (r : result T) : M T := λ σ, (r, σ).

Declare Scope py_scope.
Delimit Scope py_scope with py.
Notation "'let!' x := c 'in' k" := (bind c (λ x, k))
  (at level 10, x pattern, c at level 200, k at level 200) : py_scope.
#[local] Open Scope py_scope.

(** ** Python primitives *)

(** [d[k]] on a dictionary held by value. *)
Definition dict_getitem (d : gmap string value) (k : string) : result value :=
  match d !! k with
  | Some v => Ok v
  | None => Err (KeyError (VStr k))
  end.

(** [o[k]] with a string key, read in store [σ]: dictionaries answer, an array
    refuses the index, everything else is not subscriptable. *)
Definition lookup_item (σ : state) (o : value) (k : string) : result value :=
  match o with
  | VDict d => dict_getitem d k
  | VRef l =>
      match heap σ !! l with
      | Some d => dict_getitem d k
      | None => Err (ReferenceError l)
      end
  | VArr _ => Err IndexError
  | _ => Err TypeError
  end.

Definition getitem (o : value) (k : string) : M value :=
  λ σ, (lookup_item σ o k, σ).

(** The integer a float compares equal to, if any. *)
Definition float_as_int (f : float) : option Z :=
  match Prim2SF f with
  | S754_zero _ => Some 0%Z
  | S754_finite sign m e =>
      let a := if sign then Z.neg m else Z.pos m in
      if (0 <=? e)%Z then Some (a * 2 ^ e)%Z
      else if (Z.pos m mod 2 ^ (- e) =? 0)%Z then Some (a / 2 ^ (- e))%Z
      else None
  | _ => None
  end.

(** The integer a dictionary key hashes and compares equal to ([True == 1],
    [2.0 == 2]); unhashable keys are a [TypeError]. *)
Definition key_as_int (k : value) : result (option Z) :=
  match k with
  | VInt n => Ok (Some n)
  | VBool b => Ok (Some (if b then 1 else 0)%Z)
  | VFloat f => Ok (float_as_int f)
  | VArr _ | VIdx _ | VList _ | VRef _ | VDict _ => Err TypeError
  | _ => Ok None
  end.

(** [v in statuses]: a value that is not a status constant equals none of
    them. *)
Definition value_in (v : value) (l : list status) : bool :=
  match v with
  | VStatus st => bool_decide (st ∈ l)
  | _ => false
  end.

(** ** Keys of [cvxpy.settings]

    The module [s] is not part of the sources at hand: the key names the
    adapter reads from it are parameters. *)
Module s.
Record keys : Type := Keys {
  ECOS : string;
  C : string; OFFSET : string;
  A : string; B : string;
  G : string; H : string;
  F : string;
  DIMS : string;
  BOOL_IDX : string; INT_IDX : string;
  EXP_DIM : string;
  STATUS : string;
  SOLVE_TIME : string; SETUP_TIME : string; NUM_ITERS : string;
  VALUE : string; PRIMAL : string; EQ_DUAL : string; INEQ_DUAL : string
}.

(** The keys of a result dictionary name different entries. *)
Definition result_keys_distinct (k : keys) : Prop :=
  NoDup [STATUS k; SOLVE_TIME k; SETUP_TIME k; NUM_ITERS k;
         VALUE k; PRIMAL k; EQ_DUAL k; INEQ_DUAL k].

(** The keys of a problem-data dictionary name different entries. *)
Definition data_keys_distinct (k : keys) : Prop :=
  NoDup [C k; OFFSET k; A k; B k; G k; H k; F k; DIMS k;
         BOOL_IDX k; INT_IDX k].
End s.

(** ** The class [ECOS] *)

(** Solver capabilities. *)
Definition LP_CAPABLE : bool := true.
Definition SOCP_CAPABLE : bool := true.
Definition SDP_CAPABLE : bool := false.
Definition EXP_CAPABLE : bool := true.
Definition MIP_CAPABLE : bool := false.

(** Map of ECOS status to CVXPY status. *)
Definition STATUS_MAP : gmap Z status :=
  list_to_map
    [(0, OPTIMAL);
     (1, INFEASIBLE);
     (2, UNBOUNDED);
     (10, OPTIMAL_INACCURATE);
     (11, INFEASIBLE_INACCURATE);
     (12, UNBOUNDED_INACCURATE);
     (-1, SOLVER_ERROR);
     (-2, SOLVER_ERROR);
     (-3, SOLVER_ERROR);
     (-4, SOLVER_ERROR);
     (-7, SOLVER_ERROR)]%Z.

(** [self.STATUS_MAP[k]]. *)
Definition STATUS_MAP_getitem (k : value) : result status :=
  rbind (key_as_int k) (λ i,
    match i ≫= (STATUS_MAP !!.) with
    | Some st => Ok st
    | None => Err (KeyError k)
    end).

(** *** Calls and names *)

(** Binding positional arguments to the parameters of a method: a call with
    too few or too many arguments is a [TypeError]. *)
Definition bind_params (params : list string) (args : list value)
    : result (gmap string value) :=
  if decide (length params = length args)
  then Ok (list_to_map (zip params args))
  else Err TypeError.

(** The names the module binds at top level: its three imports and the
    class. (The builtins bind none of the names the methods read.) *)
Definition module_globals : gmap string value :=
  {[ "intf" := VObj 1; "s" := VObj 2; "Solver" := VObj 3; "ECOS" := VObj 4 ]}.

(** Reading a name in a method body: the parameters first, then the
    module's globals; a name bound in neither is a [NameError]. *)
Definition load_name (frame : gmap string value) (name : string)
    : result value :=
  match frame !! name with
  | Some v => Ok v
  | None =>
      match module_globals !! name with
      | Some v => Ok v
      | None => Err (NameError name)
      end
  end.

(** *** Upstream data *)

(** Modelled from the spec: whether a declared variable is continuous,
    boolean or integer, the flag the upstream producer supplies with each
    variable of the offset and size maps. *)
Inductive var_kind : Type := Continuous | Boolean | Integer.

#[global] Instance var_kind_eq_dec : EqDecision var_kind.
Proof. solve_decision. Defined.

(** Modelled from the spec: the identity of a decision variable, from which
    its discreteness flag is reachable. *)
Record variable : Type := Var {
  var_id : positive;
  var_declared : var_kind
}.

(** The attributes [get_problem_data] reads from the symbolic data: the
    cone-dimension dictionary (an object of the store, owned upstream), the
    ordered map of variables to offsets and the map of variable ids to
    sizes. *)
Record SymData : Type := {
  dims : loc;
  var_offsets : list (variable * nat);
  var_sizes : gmap positive nat
}.

(** What the methods of the matrix data return. *)
Record MatrixData : Type := {
  get_objective : value * value;
  get_eq_constr : value * value;
  get_ineq_constr : value * value;
  get_nonlin_constr : value
}.

(** Modelled from the spec: the flat indices of the variables declared with
    kind [k], scanning the offset map in order and expanding each such
    variable into its full range [offset, offset + size). *)
Fixpoint expand_declared (k : var_kind) (offsets : list (variable * nat))
    (sizes : gmap positive nat) : result (list nat) :=
  match offsets with
  | [] => Ok []
  | (v, offset) :: rest =>
      if decide (var_declared v = k) then
        match sizes !! var_id v with
        | Some size =>
            rbind (expand_declared k rest sizes)
              (λ indices, Ok (seq offset size ++ indices))
        | None => Err (KeyError (VInt (Z.pos (var_id v))))
        end
      else expand_declared k rest sizes
  end.

(** Modelled from the spec: [Solver._noncvx_id_to_idx], which is not part of
    the sources at hand; it derives the boolean and the integer index lists
    and has no effect on the dictionaries it is given. *)
Definition _noncvx_id_to_idx (dims_dict : value)
    (offsets : list (variable * nat)) (sizes : gmap positive nat)
    : result (list nat * list nat) :=
  rbind (expand_declared Boolean offsets sizes) (λ bool_idx,
  rbind (expand_declared Integer offsets sizes) (λ int_idx,
  Ok (bool_idx, int_idx))).

(** *** Dictionary objects of the store *)

(** [d.copy()] of the dictionary at [l]: a new object with the same
    entries. *)
Definition dict_copy (l : loc) : M loc :=
  λ σ, match heap σ !! l with
       | Some d =>
           let l' := fresh (dom (heap σ)) in
           (Ok l', State (<[l' := d]> (heap σ)) (solver_calls σ))
       | None => (Err (ReferenceError l), σ)
       end.

(** [data[owner][k] = v], where [target] is the value of [data[owner]]: a
    dictionary object of the store is updated in place, a dictionary held
    by value is updated inside [data]. *)
Definition setitem_in (data : gmap string value) (owner : string)
    (target : value) (k : string) (v : value) : M (gmap string value) :=
  match target with
  | VRef l => λ σ,
      match heap σ !! l with
      | Some d =>
          (Ok data, State (<[l := <[k := v]> d]> (heap σ)) (solver_calls σ))
      | None => (Err (ReferenceError l), σ)
      end
  | VDict d => ret (<[owner := VDict (<[k := v]> d)]> data)
  | VArr _ => raise IndexError
  | _ => raise TypeError
  end.

(** The entries the solver sees when it is handed [v]. *)
Definition deref (σ : state) (v : value) : value :=
  match v with
  | VRef l =>
      match heap σ !! l with
      | Some d => VDict d
      | None => v
      end
  | _ => v
  end.

Section ECOS.
(** The key names of [cvxpy.settings]. *)
Context (cfg : s.keys).
(** Python's [+] on the two operands of [primal_val + data[s.OFFSET]]. *)
Context (py_add : value → value → result value).

(** Converts the solver output into standard form. *)
Definition format_results (results_dict data cached_data : value)
    : M (gmap string value) :=
  let new_results : gmap string value := ∅ in
  let! info := getitem results_dict "info" in
  let! flag := getitem info "exitFlag" in
  let! status := lift (STATUS_MAP_getitem flag) in
  let new_results := <[s.STATUS cfg := VStatus status]> new_results in
  (* Timing data *)
  let! info := getitem results_dict "info" in
  let! timing := getitem info "timing" in
  let! tsolve := getitem timing "tsolve" in
  let new_results := <[s.SOLVE_TIME cfg := tsolve]> new_results in
  let! info := getitem results_dict "info" in
  let! timing := getitem info "timing" in
  let! tsetup := getitem timing "tsetup" in
  let new_results := <[s.SETUP_TIME cfg := tsetup]> new_results in
  let! info := getitem results_dict "info" in
  let! iter := getitem info "iter" in
  let new_results := <[s.NUM_ITERS cfg := iter]> new_results in
  let! recorded := lift (dict_getitem new_results (s.STATUS cfg)) in
  if value_in recorded SOLUTION_PRESENT then
    let! info := getitem results_dict "info" in
    let! primal_val := getitem info "pcost" in
    let! offset := getitem data (s.OFFSET cfg) in
    let! total := lift (py_add primal_val offset) in
    let new_results := <[s.VALUE cfg := total]> new_results in
    let! x := getitem results_dict "x" in
    let new_results := <[s.PRIMAL cfg := x]> new_results in
    let! y := getitem results_dict "y" in
    let new_results := <[s.EQ_DUAL cfg := y]> new_results in
    let! z := getitem results_dict "z" in
    let new_results := <[s.INEQ_DUAL cfg := z]> new_results in
    ret new_results
  else
    ret new_results.

(** *** The methods *)

(** The methods [get_sym_data] and [get_matrix_data] inherited from
    [Solver], which is not part of the sources at hand. *)
Context (get_sym_data : value → value → value → value → M SymData).
Context (get_matrix_data : value → value → value → value → M MatrixData).
(** Whether [import ecos] succeeds, and the solver itself. *)
Context (ecos_installed : bool).
Context (ecos_solve : list value → gmap string value → result value).

(** Lines 104 to 115 of [get_problem_data]: the bundle built from the
    symbolic and the matrix data. *)
Definition get_problem_data_body (sym_data : SymData)
    (matrix_data : MatrixData) : M (gmap string value) :=
  let data : gmap string value := ∅ in
  let '(c, offset) := get_objective matrix_data in
  let data := <[s.OFFSET cfg := offset]> (<[s.C cfg := c]> data) in
  let '(a, b) := get_eq_constr matrix_data in
  let data := <[s.B cfg := b]> (<[s.A cfg := a]> data) in
  let '(g, h) := get_ineq_constr matrix_data in
  let data := <[s.H cfg := h]> (<[s.G cfg := g]> data) in
  let data := <[s.F cfg := get_nonlin_constr matrix_data]> data in
  let! copy := dict_copy (dims sym_data) in
  let data := <[s.DIMS cfg := VRef copy]> data in
  let! dims_dict := lift (dict_getitem data (s.DIMS cfg)) in
  let! indices := lift (_noncvx_id_to_idx dims_dict
                          (var_offsets sym_data) (var_sizes sym_data)) in
  let data := <[s.BOOL_IDX cfg := VIdx indices.1]> data in
  let data := <[s.INT_IDX cfg := VIdx indices.2]> data in
  ret data.

(** Returns the argument for the call to the solver. The method has the
    parameters [self], [objective] and [constraints]. *)
Definition get_problem_data (args : list value) : M (gmap string value) :=
  let! frame := lift (bind_params ["self"; "objective"; "constraints"] args) in
  (* sym_data = self.get_sym_data(objective, constraints, cached_data) *)
  let! self := lift (load_name frame "self") in
  let! objective := lift (load_name frame "objective") in
  let! constraints := lift (load_name frame "constraints") in
  let! cached_data := lift (load_name frame "cached_data") in
  let! sym_data := get_sym_data self objective constraints cached_data in
  (* matrix_data = self.get_matrix_data(objective, constraints, cached_data) *)
  let! self := lift (load_name frame "self") in
  let! objective := lift (load_name frame "objective") in
  let! constraints := lift (load_name frame "constraints") in
  let! cached_data := lift (load_name frame "cached_data") in
  let! matrix_data := get_matrix_data self objective constraints cached_data in
  get_problem_data_body sym_data matrix_data.

(** [import ecos]. *)
Definition import_ecos : M unit :=
  if ecos_installed then ret () else raise ImportError.

(** Imports the solver. *)
Definition import_solver (args : list value) : M value :=
  let! frame := lift (bind_params ["self"] args) in
  let! _ := import_ecos in
  ret VNone.

(** The name of the solver. *)
Definition name (args : list value) : M value :=
  let! frame := lift (bind_params ["self"] args) in
  ret (VStr (s.ECOS cfg)).

(** Line 143 of [solve]: [data[s.DIMS]['e'] = data[s.DIMS][s.EXP_DIM]]. *)
Definition alias_exp_dim (data : gmap string value)
    : M (gmap string value) :=
  let! source := lift (dict_getitem data (s.DIMS cfg)) in
  let! count := getitem source (s.EXP_DIM cfg) in
  let! target := lift (dict_getitem data (s.DIMS cfg)) in
  setitem_in data (s.DIMS cfg) target "e" count.

(** The keyword arguments [verbose=verbose, **solver_opts]: the options
    must be a dictionary, and may not name [verbose] again. *)
Definition keyword_args (verbose solver_opts : value)
    : M (gmap string value) :=
  λ σ, match deref σ solver_opts with
       | VDict opts =>
           match opts !! "verbose" with
           | Some _ => (Err TypeError, σ)
           | None => (Ok (<["verbose" := verbose]> opts), σ)
           end
       | _ => (Err TypeError, σ)
       end.

(** The call [ecos.solve(...)], recorded in the log of invocations. *)
Definition call_solver (args : list value) (kwargs : gmap string value)
    : M value :=
  λ σ, (ecos_solve args kwargs,
        State (heap σ) (solver_calls σ ++ [SolverCall args kwargs])).

(** Lines 144 to 148 of [solve]: the solver call and the translation of its
    result. *)
Definition call_and_format (data : gmap string value)
    (cached_data verbose solver_opts : value) : M (gmap string value) :=
  let! c := lift (dict_getitem data (s.C cfg)) in
  let! g := lift (dict_getitem data (s.G cfg)) in
  let! h := lift (dict_getitem data (s.H cfg)) in
  let! dims_dict := lift (dict_getitem data (s.DIMS cfg)) in
  let! a := lift (dict_getitem data (s.A cfg)) in
  let! b := lift (dict_getitem data (s.B cfg)) in
  let! kwargs := keyword_args verbose solver_opts in
  let! dims_seen := (λ σ, (Ok (deref σ dims_dict), σ)) in
  let! results_dict := call_solver [c; g; h; dims_seen; a; b] kwargs in
  format_results results_dict (VDict data) cached_data.

(** Returns the result of the call to the solver. [method] is what
    [self.get_problem_data] resolves to; the parameters are [self],
    [objective], [constraints], [cached_data], [warm_start], [verbose] and
    [solver_opts]. *)
Definition solve_via (method : list value → M (gmap string value))
    (args : list value) : M (gmap string value) :=
  let! frame := lift (bind_params
    ["self"; "objective"; "constraints"; "cached_data";
     "warm_start"; "verbose"; "solver_opts"] args) in
  let! _ := import_ecos in
  let! self := lift (load_name frame "self") in
  let! objective := lift (load_name frame "objective") in
  let! constraints := lift (load_name frame "constraints") in
  let! cached_data := lift (load_name frame "cached_data") in
  let! data := method [self; objective; constraints; cached_data] in
  let! data := alias_exp_dim data in
  let! verbose := lift (load_name frame "verbose") in
  let! solver_opts := lift (load_name frame "solver_opts") in
  let! cached_data := lift (load_name frame "cached_data") in
  call_and_format data cached_data verbose solver_opts.

(** [solve] on an [ECOS] instance, where [self.get_problem_data] is the
    method above. *)
Definition solve (args : list value) : M (gmap string value) :=
  solve_via get_problem_data args.

End ECOS.


(** ** Vocabulary of the properties *)

(** Modelled from the spec: the raw result of the solver as the external
    interface fixes it, an [info] block with [exitFlag], [pcost], [iter] and
    the two timings, next to the vectors [x], [y] and [z]. *)
Definition raw_solver_result (σ : state) (results_dict : value)
    (exitFlag pcost iter tsetup tsolve x y z : value) : Prop :=
  ∃ info timing,
    lookup_item σ results_dict "info" = Ok info ∧
    lookup_item σ info "exitFlag" = Ok exitFlag ∧
    lookup_item σ info "pcost" = Ok pcost ∧
    lookup_item σ info "iter" = Ok iter ∧
    lookup_item σ info "timing" = Ok timing ∧
    lookup_item σ timing "tsetup" = Ok tsetup ∧
    lookup_item σ timing "tsolve" = Ok tsolve ∧
    lookup_item σ results_dict "x" = Ok x ∧
    lookup_item σ results_dict "y" = Ok y ∧
    lookup_item σ results_dict "z" = Ok z.

(** The exit codes of the mapping table with their documented statuses. *)
Definition documented_statuses : list (Z * status) :=
  [(0, OPTIMAL); (1, INFEASIBLE); (2, UNBOUNDED);
   (10, OPTIMAL_INACCURATE); (11, INFEASIBLE_INACCURATE);
   (12, UNBOUNDED_INACCURATE);
   (-1, SOLVER_ERROR); (-2, SOLVER_ERROR); (-3, SOLVER_ERROR);
   (-4, SOLVER_ERROR); (-7, SOLVER_ERROR)]%Z.

(** The entries every result carries. *)
Definition diagnostics (cfg : s.keys) (st : status)
    (tsolve tsetup iter : value) : gmap string value :=
  <[s.NUM_ITERS cfg := iter]>
    (<[s.SETUP_TIME cfg := tsetup]>
      (<[s.SOLVE_TIME cfg := tsolve]>
        (<[s.STATUS cfg := VStatus st]> ∅))).

(** The entries a result with a solution carries on top of [base]. *)
Definition with_solution (cfg : s.keys) (base : gmap string value)
    (total x y z : value) : gmap string value :=
  <[s.INEQ_DUAL cfg := z]>
    (<[s.EQ_DUAL cfg := y]>
      (<[s.PRIMAL cfg := x]>
        (<[s.VALUE cfg := total]> base))).

(** The four entries of a solution. *)
Definition solution_keys (cfg : s.keys) : list string :=
  [s.VALUE cfg; s.PRIMAL cfg; s.EQ_DUAL cfg; s.INEQ_DUAL cfg].

(** Modelled from the spec: the invariant of the offset and size maps, whose
    slices partition [start, n) in the order of the offset map, without gaps
    or overlaps. *)
Fixpoint partitions (start : nat) (offsets : list (variable * nat))
    (sizes : gmap positive nat) (n : nat) : Prop :=
  match offsets with
  | [] => start = n
  | (v, offset) :: rest =>
      offset = start ∧
      ∃ size, sizes !! var_id v = Some size ∧
              partitions (offset + size) rest sizes n
  end.

(** Every variable of the offset map has an entry in the size map. *)
Definition sizes_known (offsets : list (variable * nat))
    (sizes : gmap positive nat) : Prop :=
  Forall (λ entry, is_Some (sizes !! var_id entry.1)) offsets.

(** The sum of the sizes of the variables declared with kind [k]. *)
Fixpoint declared_size (k : var_kind) (offsets : list (variable * nat))
    (sizes : gmap positive nat) : nat :=
  match offsets with
  | [] => 0
  | (v, _) :: rest =>
      (if decide (var_declared v = k) then default 0 (sizes !! var_id v)
       else 0) + declared_size k rest sizes
  end.

(** ** Sample data *)

(** Key names for [cvxpy.settings]. *)
Definition sample_keys : s.keys :=
  {| s.ECOS := "ECOS";
     s.C := "c"; s.OFFSET := "offset"; s.A := "A"; s.B := "b";
     s.G := "G"; s.H := "h"; s.F := "F"; s.DIMS := "dims";
     s.BOOL_IDX := "bool_vars_idx"; s.INT_IDX := "int_vars_idx";
     s.EXP_DIM := "ep";
     s.STATUS := "status";
     s.SOLVE_TIME := "solve_time"; s.SETUP_TIME := "setup_time";
     s.NUM_ITERS := "num_iters";
     s.VALUE := "value"; s.PRIMAL := "primal";
     s.EQ_DUAL := "eq_dual"; s.INEQ_DUAL := "ineq_dual" |}.

(** [+] on two floats; other operands are out of its domain. *)
Definition float_add (a b : value) : result value :=
  match a, b with
  | VFloat x, VFloat y => Ok (VFloat (x + y))
  | _, _ => Err TypeError
  end.

(** A raw result with the given exit code: primal cost 5.0, 14 iterations,
    and vectors [x], [y], [z]. *)
Definition sample_results (exitFlag : Z) : value :=
  VDict {[
    "x" := VArr [1; 2]%float;
    "y" := VArr [0.5]%float;
    "z" := VArr [0; 3]%float;
    "info" := VDict {[
      "exitFlag" := VInt exitFlag;
      "pcost" := VFloat 5;
      "iter" := VInt 14;
      "timing" := VDict {[ "tsetup" := VFloat 0.25; "tsolve" := VFloat 1.5 ]}
    ]}
  ]}.

(** A bundle with objective offset 2.5. *)
Definition sample_data : value :=
  VDict {[ "offset" := VFloat 2.5 ]}.

(** The empty store. *)
Definition empty_state : state := State ∅ [].

(** Symbolic data with a boolean variable of size 2 at offset 0, a continuous
    one of size 3 at offset 2 and an integer one of size 1 at offset 5; its
    cone dimensions are the dictionary at address 1. *)
Definition sample_sym_data : SymData :=
  {| dims := 1%positive;
     var_offsets := [(Var 1 Boolean, 0); (Var 2 Continuous, 2);
                     (Var 3 Integer, 5)];
     var_sizes := {[ 1%positive := 2; 2%positive := 3; 3%positive := 1 ]} |}.

Definition sample_matrix_data : MatrixData :=
  {| get_objective := (VArr [1; 1]%float, VFloat 2.5);
     get_eq_constr := (VObj 10, VArr []);
     get_ineq_constr := (VObj 11, VArr [4]%float);
     get_nonlin_constr := VNone |}.

(** Upstream methods that hand out the sample data. *)
Definition sample_get_sym_data (self objective constraints cached_data : value)
    : M SymData :=
  ret sample_sym_data.

Definition sample_get_matrix_data
    (self objective constraints cached_data : value) : M MatrixData :=
  ret sample_matrix_data.

(** A store whose only object is the upstream cone-dimension dictionary. *)
Definition sample_dims : gmap string value :=
  {[ "l" := VInt 1; "q" := VIdx []; "ep" := VInt 2 ]}.

Definition sample_state : state :=
  State {[ 1%positive := sample_dims ]} [].

(** A solver that reports exit code 0 on every problem. *)
Definition sample_solver (args : list value) (kwargs : gmap string value)
    : result value :=
  Ok (sample_results 0).

(** The entries of the bundle that come from the matrix data (lines 104 to
    108 of [get_problem_data]). *)
Definition matrix_entries (cfg : s.keys) (matrix_data : MatrixData)
    : gmap string value :=
  <[s.F cfg := get_nonlin_constr matrix_data]>
    (<[s.H cfg := (get_ineq_constr matrix_data).2]>
      (<[s.G cfg := (get_ineq_constr matrix_data).1]>
        (<[s.B cfg := (get_eq_constr matrix_data).2]>
          (<[s.A cfg := (get_eq_constr matrix_data).1]>
            (<[s.OFFSET cfg := (get_objective matrix_data).2]>
              (<[s.C cfg := (get_objective matrix_data).1]> ∅)))))).

(** The bundle with the copied descriptor and the index lists (lines 109 to
    114). *)
Definition bundle (cfg : s.keys) (matrix_data : MatrixData) (copy : loc)
    (indices : list nat * list nat) : gmap string value :=
  <[s.INT_IDX cfg := VIdx indices.2]>
    (<[s.BOOL_IDX cfg := VIdx indices.1]>
      (<[s.DIMS cfg := VRef copy]> (matrix_entries cfg matrix_data))).

(** Build and solve from the point where the symbolic and the matrix data
    are at hand: lines 104 to 115 of [get_problem_data], then lines 143 to
    148 of [solve]. *)
Definition build_and_solve (cfg : s.keys)
    (py_add : value → value → result value)
    (ecos_solve : list value → gmap string value → result value)
    (sym_data : SymData) (matrix_data : MatrixData)
    (cached_data verbose solver_opts : value) : M (gmap string value) :=
  let! data := get_problem_data_body cfg sym_data matrix_data in
  let! data := alias_exp_dim cfg data in
  call_and_format cfg py_add ecos_solve data cached_data verbose solver_opts.

(** The outcome of build and solve on the sample data. *)
Definition sample_run : result (gmap string value) * state :=
  build_and_solve sample_keys float_add sample_solver sample_sym_data
    sample_matrix_data VNone (VBool false) (VDict ∅) sample_state.

(** The four entries of the diagnostics. *)
Definition diagnostic_keys (cfg : s.keys) : list string :=
  [s.STATUS cfg; s.SOLVE_TIME cfg; s.SETUP_TIME cfg; s.NUM_ITERS cfg].

(** The ten entries of a bundle. *)
Definition data_keys (cfg : s.keys) : list string :=
  [s.C cfg; s.OFFSET cfg; s.A cfg; s.B cfg; s.G cfg; s.H cfg; s.F cfg;
   s.DIMS cfg; s.BOOL_IDX cfg; s.INT_IDX cfg].

(** The store once the descriptor [d] is copied to [copy] and the copy
    carries the alias, the log of solver invocations being as in [σ]. *)
Definition aliased_state (σ : state) (copy : loc) (d : gmap string value)
    (count : value) : state :=
  State (<[copy := <["e" := count]> d]> (heap σ)) (solver_calls σ).

(** The invocation [ecos.solve(c, G, h, dims, A, b, verbose=verbose,
    **opts)] on the entries of the matrix data and the aliased copy of the
    descriptor [d]. *)
Definition expected_call (matrix_data : MatrixData) (d : gmap string value)
    (count verbose : value) (opts : gmap string value) : solver_call :=
  SolverCall
    [(get_objective matrix_data).1;
     (get_ineq_constr matrix_data).1; (get_ineq_constr matrix_data).2;
     VDict (<["e" := count]> d);
     (get_eq_constr matrix_data).1; (get_eq_constr matrix_data).2]
    (<["verbose" := verbose]> opts).

(** A raw result with nothing but the exit code and the diagnostics: no
    primal cost and no vectors. *)
Definition bare_results (exitFlag : Z) : value :=
  VDict {[
    "info" := VDict {[
      "exitFlag" := VInt exitFlag;
      "iter" := VInt 3;
      "timing" := VDict {[ "tsetup" := VFloat 0.25; "tsolve" := VFloat 0.5 ]}
    ]}
  ]}.

(** An addition that refuses every pair of operands. *)
Definition no_add (a b : value) : result value := Err TypeError.

(** A solver whose invocation raises. *)
Definition failing_solver (args : list value) (kwargs : gmap string value)
    : result value :=
  Err (Raised "SolverError").

(** A method that raises instead of returning a bundle. *)
Definition failing_method (args : list value) : M (gmap string value) :=
  raise (Raised "SolverError").

(** A cone-dimension descriptor without the exponential-cone count. *)
Definition dims_without_ep : gmap string value :=
  {[ "l" := VInt 1; "q" := VIdx [] ]}.

(** A store whose upstream descriptor has no exponential-cone count. *)
Definition state_without_ep : state :=
  State {[ 1%positive := dims_without_ep ]} [].

(** * Properties *)

(** ** Running [format_results] *)

Lemma bind_getitem {T : Type} (o : value) (k : string) (f : value → M T) σ :
  (let! v := getitem o k in f v) σ =
  match lookup_item σ o k with
  | Ok v => f v σ
  | Err e => (Err e, σ)
  end.
Proof. reflexivity. Qed.

Lemma bind_lift {T U : Type} (r : result T) (f : T → M U) σ :
  (let! v := lift r in f v) σ =
  match r with
  | Ok v => f v σ
  | Err e => (Err e, σ)
  end.
Proof. reflexivity. Qed.

Lemma documented_in_STATUS_MAP code st :
  (code, st) ∈ documented_statuses → STATUS_MAP !! code = Some st.
Proof.
  unfold documented_statuses. rewrite !elem_of_cons, elem_of_nil.
  intros H. repeat destruct H as [H|H]; try done;
    injection H as -> ->; reflexivity.
Qed.

Lemma STATUS_MAP_dom code :
  is_Some (STATUS_MAP !! code) ↔ code ∈ documented_statuses.*1.
Proof.
  unfold STATUS_MAP, documented_statuses.
  rewrite <- elem_of_dom, dom_list_to_map_L, elem_of_list_to_set. done.
Qed.

Lemma STATUS_MAP_getitem_int code st :
  STATUS_MAP !! code = Some st → STATUS_MAP_getitem (VInt code) = Ok st.
Proof. intros H. unfold STATUS_MAP_getitem. simpl. by rewrite H. Qed.

Lemma STATUS_MAP_getitem_unknown code :
  STATUS_MAP !! code = None →
  STATUS_MAP_getitem (VInt code) = Err (KeyError (VInt code)).
Proof. intros H. unfold STATUS_MAP_getitem. simpl. by rewrite H. Qed.

Lemma value_in_status st l : value_in (VStatus st) l = bool_decide (st ∈ l).
Proof. reflexivity. Qed.

Section format_results_runs.
Context (cfg : s.keys) (py_add : value → value → result value).
Context (Hkeys : s.result_keys_distinct cfg).

Lemma result_keys_ne :
  s.STATUS cfg ≠ s.SOLVE_TIME cfg ∧ s.STATUS cfg ≠ s.SETUP_TIME cfg ∧
  s.STATUS cfg ≠ s.NUM_ITERS cfg ∧ s.STATUS cfg ≠ s.VALUE cfg ∧
  s.STATUS cfg ≠ s.PRIMAL cfg ∧ s.STATUS cfg ≠ s.EQ_DUAL cfg ∧
  s.STATUS cfg ≠ s.INEQ_DUAL cfg ∧
  s.SOLVE_TIME cfg ≠ s.SETUP_TIME cfg ∧ s.SOLVE_TIME cfg ≠ s.NUM_ITERS cfg ∧
  s.SOLVE_TIME cfg ≠ s.VALUE cfg ∧ s.SOLVE_TIME cfg ≠ s.PRIMAL cfg ∧
  s.SOLVE_TIME cfg ≠ s.EQ_DUAL cfg ∧ s.SOLVE_TIME cfg ≠ s.INEQ_DUAL cfg ∧
  s.SETUP_TIME cfg ≠ s.NUM_ITERS cfg ∧ s.SETUP_TIME cfg ≠ s.VALUE cfg ∧
  s.SETUP_TIME cfg ≠ s.PRIMAL cfg ∧ s.SETUP_TIME cfg ≠ s.EQ_DUAL cfg ∧
  s.SETUP_TIME cfg ≠ s.INEQ_DUAL cfg ∧
  s.NUM_ITERS cfg ≠ s.VALUE cfg ∧ s.NUM_ITERS cfg ≠ s.PRIMAL cfg ∧
  s.NUM_ITERS cfg ≠ s.EQ_DUAL cfg ∧ s.NUM_ITERS cfg ≠ s.INEQ_DUAL cfg ∧
  s.VALUE cfg ≠ s.PRIMAL cfg ∧ s.VALUE cfg ≠ s.EQ_DUAL cfg ∧
  s.VALUE cfg ≠ s.INEQ_DUAL cfg ∧
  s.PRIMAL cfg ≠ s.EQ_DUAL cfg ∧ s.PRIMAL cfg ≠ s.INEQ_DUAL cfg ∧
  s.EQ_DUAL cfg ≠ s.INEQ_DUAL cfg.
Proof.
  pose proof Hkeys as H. unfold s.result_keys_distinct in H.
  repeat (apply NoDup_cons in H as [? H]).
  set_solver.
Qed.

Lemma diagnostics_status st tsolve tsetup iter :
  dict_getitem (diagnostics cfg st tsolve tsetup iter) (s.STATUS cfg)
  = Ok (VStatus st).
Proof.
  destruct result_keys_ne as (?&?&?&?). unfold dict_getitem, diagnostics.
  by simplify_map_eq.
Qed.

(** Once the status and the diagnostics are read, the run is decided by the
    membership of the status in [SOLUTION_PRESENT]. *)
Lemma format_results_run σ results_dict data cached_data
    info flag st timing tsolve tsetup iter :
  lookup_item σ results_dict "info" = Ok info →
  lookup_item σ info "exitFlag" = Ok flag →
  STATUS_MAP_getitem flag = Ok st →
  lookup_item σ info "timing" = Ok timing →
  lookup_item σ timing "tsolve" = Ok tsolve →
  lookup_item σ timing "tsetup" = Ok tsetup →
  lookup_item σ info "iter" = Ok iter →
  format_results cfg py_add results_dict data cached_data σ =
  let base := diagnostics cfg st tsolve tsetup iter in
  if bool_decide (st ∈ SOLUTION_PRESENT) then
    match lookup_item σ info "pcost" with
    | Err e => (Err e, σ)
    | Ok pcost =>
      match lookup_item σ data (s.OFFSET cfg) with
      | Err e => (Err e, σ)
      | Ok offset =>
        match py_add pcost offset with
        | Err e => (Err e, σ)
        | Ok total =>
          match lookup_item σ results_dict "x" with
          | Err e => (Err e, σ)
          | Ok x =>
            match lookup_item σ results_dict "y" with
            | Err e => (Err e, σ)
            | Ok y =>
              match lookup_item σ results_dict "z" with
              | Err e => (Err e, σ)
              | Ok z => (Ok (with_solution cfg base total x y z), σ)
              end
            end
          end
        end
      end
    end
  else (Ok base, σ).
Proof.
  intros Hinfo Hflag Hst Htiming Htsolve Htsetup Hiter.
  unfold format_results.
  rewrite bind_getitem, Hinfo, bind_getitem, Hflag, bind_lift, Hst.
  rewrite bind_getitem, Hinfo, bind_getitem, Htiming, bind_getitem, Htsolve.
  rewrite bind_getitem, Hinfo, bind_getitem, Htiming, bind_getitem, Htsetup.
  rewrite bind_getitem, Hinfo, bind_getitem, Hiter.
  fold (diagnostics cfg st tsolve tsetup iter).
  rewrite bind_lift, diagnostics_status, value_in_status. cbn zeta.
  destruct (bool_decide (st ∈ SOLUTION_PRESENT)); [|reflexivity].
  rewrite bind_getitem, Hinfo, bind_getitem.
  destruct (lookup_item σ info "pcost"); [|reflexivity].
  rewrite bind_getitem.
  destruct (lookup_item σ data (s.OFFSET cfg)); [|reflexivity].
  rewrite bind_lift. destruct (py_add _ _); [|reflexivity].
  rewrite bind_getitem.
  destruct (lookup_item σ results_dict "x"); [|reflexivity].
  rewrite bind_getitem.
  destruct (lookup_item σ results_dict "y"); [|reflexivity].
  rewrite bind_getitem.
  destruct (lookup_item σ results_dict "z"); reflexivity.
Qed.

Lemma diagnostics_lookup st tsolve tsetup iter :
  let base := diagnostics cfg st tsolve tsetup iter in
  base !! s.STATUS cfg = Some (VStatus st) ∧
  base !! s.SOLVE_TIME cfg = Some tsolve ∧
  base !! s.SETUP_TIME cfg = Some tsetup ∧
  base !! s.NUM_ITERS cfg = Some iter ∧
  ∀ k, k ∈ solution_keys cfg → base !! k = None.
Proof.
  pose proof result_keys_ne as H. unfold diagnostics, solution_keys.
  destruct_and!. split_and!; [by simplify_map_eq..|].
  intros k Hk. rewrite !elem_of_cons, elem_of_nil in Hk.
  destruct_or!; try done; subst k; by simplify_map_eq.
Qed.

Lemma with_solution_lookup base total x y z :
  let full := with_solution cfg base total x y z in
  full !! s.VALUE cfg = Some total ∧
  full !! s.PRIMAL cfg = Some x ∧
  full !! s.EQ_DUAL cfg = Some y ∧
  full !! s.INEQ_DUAL cfg = Some z ∧
  ∀ k, k ∉ solution_keys cfg → full !! k = base !! k.
Proof.
  pose proof result_keys_ne as H. unfold with_solution, solution_keys.
  destruct_and!. split_and!; [by simplify_map_eq..|].
  intros k Hk. rewrite !not_elem_of_cons in Hk.
  destruct_and!. by simplify_map_eq.
Qed.

Lemma with_solution_present base total x y z k :
  k ∈ solution_keys cfg →
  is_Some (with_solution cfg base total x y z !! k).
Proof.
  intros Hk.
  pose proof (with_solution_lookup base total x y z) as (Hv & Hp & He & Hi & _).
  unfold solution_keys in Hk. rewrite !elem_of_cons, elem_of_nil in Hk.
  destruct_or!; try done; subst k; eauto.
Qed.

Lemma diagnostic_keys_not_solution :
  (s.STATUS cfg ∉ solution_keys cfg) ∧ (s.SOLVE_TIME cfg ∉ solution_keys cfg) ∧
  (s.SETUP_TIME cfg ∉ solution_keys cfg) ∧ (s.NUM_ITERS cfg ∉ solution_keys cfg).
Proof.
  pose proof result_keys_ne as H. unfold solution_keys.
  rewrite !not_elem_of_cons. destruct_and!. split_and!; done || set_solver.
Qed.

(** A raw result that honours the contract and carries a known exit code is
    translated without an exception, whatever the status. *)
Lemma format_results_known σ results_dict data cached_data
    code st pcost iter tsetup tsolve x y z :
  raw_solver_result σ results_dict (VInt code) pcost iter tsetup tsolve x y z →
  STATUS_MAP !! code = Some st →
  (st ∈ SOLUTION_PRESENT → ∃ offset total,
     lookup_item σ data (s.OFFSET cfg) = Ok offset ∧
     py_add pcost offset = Ok total) →
  ∃ new_results,
    format_results cfg py_add results_dict data cached_data σ
      = (Ok new_results, σ) ∧
    ∀ k, k ∉ solution_keys cfg →
      new_results !! k = diagnostics cfg st tsolve tsetup iter !! k.
Proof.
  intros (info & timing & Hinfo & Hflag & Hpcost & Hiter & Htiming & Htsetup
          & Htsolve & Hx & Hy & Hz) Hst Hadd.
  rewrite (format_results_run σ results_dict data cached_data info (VInt code)
             st timing tsolve tsetup iter) by auto using STATUS_MAP_getitem_int.
  cbn zeta. case_bool_decide as Hin.
  - destruct (Hadd Hin) as (offset & total & Hoff & Htotal).
    rewrite Hpcost, Hoff, Htotal, Hx, Hy, Hz. eexists; split; [done|].
    intros k Hk. by apply with_solution_lookup.
  - eauto.
Qed.

End format_results_runs.

(** The store is only read by [format_results]. *)
Lemma format_results_state cfg py_add results_dict data cached_data σ r σ' :
  format_results cfg py_add results_dict data cached_data σ = (r, σ') →
  σ' = σ.
Proof.
  unfold format_results, bind, getitem, lift, ret.
  repeat (match goal with
          | |- context [match ?r with Ok _ => _ | Err _ => _ end] => destruct r
          | |- context [if ?b then _ else _] => destruct b
          end; cbn beta iota);
    by intros [= _ <-].
Qed.

(** A run of [format_results] that returns has read the status and the
    diagnostics. *)
Lemma format_results_inv cfg py_add results_dict data cached_data σ nr σ' :
  format_results cfg py_add results_dict data cached_data σ = (Ok nr, σ') →
  ∃ info flag st timing tsolve tsetup iter,
    lookup_item σ results_dict "info" = Ok info ∧
    lookup_item σ info "exitFlag" = Ok flag ∧
    STATUS_MAP_getitem flag = Ok st ∧
    lookup_item σ info "timing" = Ok timing ∧
    lookup_item σ timing "tsolve" = Ok tsolve ∧
    lookup_item σ timing "tsetup" = Ok tsetup ∧
    lookup_item σ info "iter" = Ok iter.
Proof.
  unfold format_results.
  rewrite bind_getitem.
  destruct (lookup_item σ results_dict "info") as [info|] eqn:Hinfo; [|done].
  rewrite bind_getitem.
  destruct (lookup_item σ info "exitFlag") as [flag|] eqn:Hflag; [|done].
  rewrite bind_lift.
  destruct (STATUS_MAP_getitem flag) as [st|] eqn:Hst; [|done].
  rewrite bind_getitem, Hinfo, bind_getitem.
  destruct (lookup_item σ info "timing") as [timing|] eqn:Htiming; [|done].
  rewrite bind_getitem.
  destruct (lookup_item σ timing "tsolve") as [tsolve|] eqn:Htsolve; [|done].
  rewrite bind_getitem, Hinfo, bind_getitem, Htiming, bind_getitem.
  destruct (lookup_item σ timing "tsetup") as [tsetup|] eqn:Htsetup; [|done].
  rewrite bind_getitem, Hinfo, bind_getitem.
  destruct (lookup_item σ info "iter") as [iter|] eqn:Hiter; [|done].
  intros _. by exists info, flag, st, timing, tsolve, tsetup, iter.
Qed.

Lemma sample_keys_distinct : s.result_keys_distinct sample_keys.
Proof. apply (bool_decide_unpack _). by vm_compute. Qed.

Lemma sample_results_contract code :
  raw_solver_result empty_state (sample_results code) (VInt code)
    (VFloat 5) (VInt 14) (VFloat 0.25) (VFloat 1.5)
    (VArr [1; 2]%float) (VArr [0.5]%float) (VArr [0; 3]%float).
Proof.
  eexists _, _. unfold sample_results. simpl. split_and!; reflexivity.
Qed.

(** ** The status table *)

(** C1. For every exit code of the mapping table (0, 1, 2, 10, 11, 12, -1,
    -2, -3, -4, -7), [format_results] applied to a raw result that honours
    the solver contract returns normally, and the status it records is the
    documented one: OPTIMAL, INFEASIBLE, UNBOUNDED, their inaccurate
    variants for 10, 11, 12, and SOLVER_ERROR for the negative codes. *)
Theorem documented_status_returned cfg py_add σ results_dict data cached_data
    code st pcost iter tsetup tsolve x y z :
  s.result_keys_distinct cfg →
  raw_solver_result σ results_dict (VInt code) pcost iter tsetup tsolve x y z →
  (st ∈ SOLUTION_PRESENT → ∃ offset total,
     lookup_item σ data (s.OFFSET cfg) = Ok offset ∧
     py_add pcost offset = Ok total) →
  (code, st) ∈ documented_statuses →
  ∃ new_results,
    format_results cfg py_add results_dict data cached_data σ
      = (Ok new_results, σ) ∧
    new_results !! s.STATUS cfg = Some (VStatus st).
Proof.
  intros Hkeys Hraw Hadd Hdoc.
  destruct (format_results_known cfg py_add Hkeys σ results_dict data
              cached_data code st pcost iter tsetup tsolve x y z)
    as (nr & Hrun & Hsame); auto using documented_in_STATUS_MAP.
  exists nr. split; [done|].
  rewrite Hsame by apply (diagnostic_keys_not_solution cfg Hkeys).
  by apply diagnostics_lookup.
Qed.

Lemma documented_status_returned_witness :
  ∃ new_results,
    format_results sample_keys float_add (sample_results (-2)) sample_data
      VNone empty_state = (Ok new_results, empty_state) ∧
    new_results !! "status" = Some (VStatus SOLVER_ERROR).
Proof.
  apply (documented_status_returned sample_keys float_add empty_state
           (sample_results (-2)) sample_data VNone (-2) SOLVER_ERROR
           (VFloat 5) (VInt 14) (VFloat 0.25) (VFloat 1.5)
           (VArr [1; 2]%float) (VArr [0.5]%float) (VArr [0; 3]%float)).
  - apply sample_keys_distinct.
  - apply sample_results_contract.
  - intros Hin. exfalso. revert Hin. by apply (bool_decide_eq_false_1 _).
  - by apply (bool_decide_unpack _).
Defined.

(** C8. For every raw result that honours the solver contract and whose exit
    code is in the mapping table, [format_results] records the solve time
    ([timing.tsolve]), the setup time ([timing.tsetup]) and the iteration
    count ([iter]) of the raw result, whatever status the exit code maps to,
    SOLVER_ERROR, INFEASIBLE and UNBOUNDED included. *)
Theorem diagnostics_always_populated cfg py_add σ results_dict data
    cached_data code st pcost iter tsetup tsolve x y z :
  s.result_keys_distinct cfg →
  raw_solver_result σ results_dict (VInt code) pcost iter tsetup tsolve x y z →
  (code, st) ∈ documented_statuses →
  (st ∈ SOLUTION_PRESENT → ∃ offset total,
     lookup_item σ data (s.OFFSET cfg) = Ok offset ∧
     py_add pcost offset = Ok total) →
  ∃ new_results,
    format_results cfg py_add results_dict data cached_data σ
      = (Ok new_results, σ) ∧
    new_results !! s.STATUS cfg = Some (VStatus st) ∧
    new_results !! s.SOLVE_TIME cfg = Some tsolve ∧
    new_results !! s.SETUP_TIME cfg = Some tsetup ∧
    new_results !! s.NUM_ITERS cfg = Some iter.
Proof.
  intros Hkeys Hraw Hcode Hadd.
  apply documented_in_STATUS_MAP in Hcode.
  destruct (format_results_known cfg py_add Hkeys σ results_dict data
              cached_data code st pcost iter tsetup tsolve x y z)
    as (nr & Hrun & Hsame); auto.
  exists nr. split; [done|].
  pose proof (diagnostic_keys_not_solution cfg Hkeys) as (? & ? & ? & ?).
  pose proof (diagnostics_lookup cfg Hkeys st tsolve tsetup iter)
    as (? & ? & ? & ? & _).
  rewrite !Hsame by done. done.
Qed.

Lemma diagnostics_always_populated_witness :
  ∃ new_results,
    format_results sample_keys float_add (sample_results (-1)) sample_data
      VNone empty_state = (Ok new_results, empty_state) ∧
    new_results !! "status" = Some (VStatus SOLVER_ERROR) ∧
    new_results !! "solve_time" = Some (VFloat 1.5) ∧
    new_results !! "setup_time" = Some (VFloat 0.25) ∧
    new_results !! "num_iters" = Some (VInt 14).
Proof.
  apply (diagnostics_always_populated sample_keys float_add empty_state
           (sample_results (-1)) sample_data VNone (-1) SOLVER_ERROR
           (VFloat 5) (VInt 14) (VFloat 0.25) (VFloat 1.5)
           (VArr [1; 2]%float) (VArr [0.5]%float) (VArr [0; 3]%float)).
  - apply sample_keys_distinct.
  - apply sample_results_contract.
  - by apply (bool_decide_unpack _).
  - intros Hin. exfalso. revert Hin. by apply (bool_decide_eq_false_1 _).
Defined.

(** ** Presence of the solution *)

(** C2. In every result [format_results] returns, each of the optimal value,
    the primal vector, the equality dual and the inequality dual is present
    if and only if the recorded status, the one [STATUS_MAP] gives for the
    raw exit flag, is in SOLUTION_PRESENT; outside that subset the four are
    absent whatever vectors the raw result contains. *)
Theorem solution_present_iff cfg py_add σ σ' results_dict data cached_data
    new_results :
  s.result_keys_distinct cfg →
  format_results cfg py_add results_dict data cached_data σ
    = (Ok new_results, σ') →
  ∃ info flag st,
    lookup_item σ results_dict "info" = Ok info ∧
    lookup_item σ info "exitFlag" = Ok flag ∧
    STATUS_MAP_getitem flag = Ok st ∧
    new_results !! s.STATUS cfg = Some (VStatus st) ∧
    ∀ k, k ∈ solution_keys cfg →
      (is_Some (new_results !! k) ↔ st ∈ SOLUTION_PRESENT) ∧
      (st ∉ SOLUTION_PRESENT → new_results !! k = None).
Proof.
  intros Hkeys Hrun.
  destruct (format_results_inv _ _ _ _ _ _ _ _ Hrun)
    as (info & flag & st & timing & tsolve & tsetup & iter & Hinfo & Hflag
        & Hst & Htiming & Htsolve & Htsetup & Hiter).
  exists info, flag, st. split_and!; try done.
  - revert Hrun.
    rewrite (format_results_run cfg py_add Hkeys σ results_dict data
               cached_data info flag st timing tsolve tsetup iter) by done.
    cbn zeta. pose proof (diagnostic_keys_not_solution cfg Hkeys) as (? & _).
    destruct (bool_decide _).
    + repeat (match goal with
              | |- context [match ?r with Ok _ => _ | Err _ => _ end] =>
                  destruct r
              end; try done).
      intros [= <- _].
      rewrite (proj2 (proj2 (proj2 (proj2
                 (with_solution_lookup cfg Hkeys _ _ _ _ _))))) by done.
      by apply diagnostics_lookup.
    + intros [= <- _]. by apply diagnostics_lookup.
  - intros k Hk. revert Hrun.
    rewrite (format_results_run cfg py_add Hkeys σ results_dict data
               cached_data info flag st timing tsolve tsetup iter) by done.
    cbn zeta. case_bool_decide as Hin.
    + repeat (match goal with
              | |- context [match ?r with Ok _ => _ | Err _ => _ end] =>
                  destruct r
              end; try done).
      intros [= <- _]. split; [|done]. split; [done|intros _].
      by apply with_solution_present.
    + intros [= <- _].
      pose proof (diagnostics_lookup cfg Hkeys st tsolve tsetup iter)
        as (_ & _ & _ & _ & Hnone).
      rewrite (Hnone k Hk). split; [|done].
      split; [by intros [? ?]|done].
Qed.

Lemma solution_present_iff_witness :
  ∃ info flag st,
    lookup_item empty_state (sample_results 1) "info" = Ok info ∧
    lookup_item empty_state info "exitFlag" = Ok flag ∧
    STATUS_MAP_getitem flag = Ok st ∧
    diagnostics sample_keys INFEASIBLE (VFloat 1.5) (VFloat 0.25) (VInt 14)
      !! "status" = Some (VStatus st) ∧
    ∀ k, k ∈ ["value"; "primal"; "eq_dual"; "ineq_dual"] →
      (is_Some (diagnostics sample_keys INFEASIBLE (VFloat 1.5) (VFloat 0.25)
                  (VInt 14) !! k) ↔ st ∈ SOLUTION_PRESENT) ∧
      (st ∉ SOLUTION_PRESENT →
       diagnostics sample_keys INFEASIBLE (VFloat 1.5) (VFloat 0.25)
         (VInt 14) !! k = None).
Proof.
  apply (solution_present_iff sample_keys float_add empty_state empty_state
           (sample_results 1) sample_data VNone).
  - apply sample_keys_distinct.
  - reflexivity.
Defined.

(** C3. When the exit code of a raw result that honours the solver contract
    maps to a status in SOLUTION_PRESENT, the optimal value of the result is
    what the one addition [pcost + data[s.OFFSET]] computes, nothing else
    being applied to it, and the primal vector, the equality dual and the
    inequality dual are the raw [x], [y] and [z] themselves. *)
Theorem optimal_value_is_pcost_plus_offset cfg py_add σ results_dict data
    cached_data code st pcost iter tsetup tsolve x y z offset total :
  s.result_keys_distinct cfg →
  raw_solver_result σ results_dict (VInt code) pcost iter tsetup tsolve x y z →
  STATUS_MAP !! code = Some st →
  st ∈ SOLUTION_PRESENT →
  lookup_item σ data (s.OFFSET cfg) = Ok offset →
  py_add pcost offset = Ok total →
  ∃ new_results,
    format_results cfg py_add results_dict data cached_data σ
      = (Ok new_results, σ) ∧
    new_results !! s.VALUE cfg = Some total ∧
    new_results !! s.PRIMAL cfg = Some x ∧
    new_results !! s.EQ_DUAL cfg = Some y ∧
    new_results !! s.INEQ_DUAL cfg = Some z.
Proof.
  intros Hkeys (info & timing & Hinfo & Hflag & Hpcost & Hiter & Htiming
                & Htsetup & Htsolve & Hx & Hy & Hz) Hst Hin Hoff Htotal.
  rewrite (format_results_run cfg py_add Hkeys σ results_dict data cached_data
             info (VInt code) st timing tsolve tsetup iter)
    by auto using STATUS_MAP_getitem_int.
  cbn zeta. rewrite (bool_decide_eq_true_2 _ Hin).
  rewrite Hpcost, Hoff, Htotal, Hx, Hy, Hz.
  eexists. split; [done|].
  pose proof (with_solution_lookup cfg Hkeys
                (diagnostics cfg st tsolve tsetup iter) total x y z)
    as (? & ? & ? & ? & _).
  done.
Qed.

Lemma optimal_value_is_pcost_plus_offset_witness :
  ∃ new_results,
    format_results sample_keys float_add (sample_results 10) sample_data
      VNone empty_state = (Ok new_results, empty_state) ∧
    new_results !! "value" = Some (VFloat 7.5) ∧
    new_results !! "primal" = Some (VArr [1; 2]%float) ∧
    new_results !! "eq_dual" = Some (VArr [0.5]%float) ∧
    new_results !! "ineq_dual" = Some (VArr [0; 3]%float).
Proof.
  apply (optimal_value_is_pcost_plus_offset sample_keys float_add empty_state
           (sample_results 10) sample_data VNone 10 OPTIMAL_INACCURATE
           (VFloat 5) (VInt 14) (VFloat 0.25) (VFloat 1.5)
           (VArr [1; 2]%float) (VArr [0.5]%float) (VArr [0; 3]%float)
           (VFloat 2.5) (VFloat 7.5)).
  - apply sample_keys_distinct.
  - apply sample_results_contract.
  - reflexivity.
  - by apply (bool_decide_unpack _).
  - reflexivity.
  - reflexivity.
Defined.

(** ** Exit codes outside the table *)

(** C4 as the spec states it fails: for the exit code 3, which is not a key
    of the table, [format_results] raises the [KeyError] of the dictionary
    lookup, not an exception named UnknownExitCode. *)
Lemma unknown_exit_code_not_UnknownExitCode :
  (3%Z ∉ documented_statuses.*1) ∧
  ¬ ∃ e σ',
      format_results sample_keys float_add (sample_results 3) sample_data
        VNone empty_state = (Err e, σ') ∧
      exn_name e = "UnknownExitCode".
Proof.
  split; [by apply (bool_decide_eq_false_1 _)|].
  intros (e & σ' & Hrun & Hname).
  assert (format_results sample_keys float_add (sample_results 3) sample_data
            VNone empty_state = (Err (KeyError (VInt 3)), empty_state))
    as Hkey by reflexivity.
  rewrite Hkey in Hrun. injection Hrun as <- _. discriminate Hname.
Qed.

(** C4, amended. For any raw exit code that is not among the eleven keys of
    the mapping table, [format_results] fails with the [KeyError] of the
    lookup in [STATUS_MAP], carrying the exit code, and returns no result;
    the store is left as it was. *)
Theorem unknown_exit_code_raises_KeyError cfg py_add σ results_dict data
    cached_data info code :
  lookup_item σ results_dict "info" = Ok info →
  lookup_item σ info "exitFlag" = Ok (VInt code) →
  code ∉ documented_statuses.*1 →
  format_results cfg py_add results_dict data cached_data σ
    = (Err (KeyError (VInt code)), σ).
Proof.
  intros Hinfo Hflag Hcode.
  assert (STATUS_MAP !! code = None) as Hnone.
  { apply eq_None_not_Some. by rewrite STATUS_MAP_dom. }
  unfold format_results.
  rewrite bind_getitem, Hinfo, bind_getitem, Hflag, bind_lift.
  by rewrite (STATUS_MAP_getitem_unknown _ Hnone).
Qed.

Lemma unknown_exit_code_raises_KeyError_witness :
  format_results sample_keys float_add (sample_results 3) sample_data VNone
    empty_state = (Err (KeyError (VInt 3)), empty_state).
Proof.
  apply (unknown_exit_code_raises_KeyError sample_keys float_add empty_state
           (sample_results 3) sample_data VNone
           (VDict {[ "exitFlag" := VInt 3; "pcost" := VFloat 5;
                     "iter" := VInt 14;
                     "timing" := VDict {[ "tsetup" := VFloat 0.25;
                                          "tsolve" := VFloat 1.5 ]} ]}) 3).
  - reflexivity.
  - reflexivity.
  - by apply (bool_decide_eq_false_1 _).
Defined.

(** ** [get_problem_data] as written *)

Lemma length_three {T : Type} (l : list T) :
  3 = length l → ∃ a b c, l = [a; b; c].
Proof.
  destruct l as [|a [|b [|c [|? ?]]]]; try discriminate. eauto.
Qed.

Lemma length_seven {T : Type} (l : list T) :
  7 = length l → ∃ a b c d e f g, l = [a; b; c; d; e; f; g].
Proof.
  destruct l as [|a [|b [|c [|d [|e [|f [|g [|? ?]]]]]]]]; try discriminate.
  intros _. by exists a, b, c, d, e, f, g.
Qed.

(** The body reads [cached_data], which no parameter and no global binds. *)
Lemma get_problem_data_NameError cfg get_sym_data get_matrix_data
    self objective constraints σ :
  get_problem_data cfg get_sym_data get_matrix_data
    [self; objective; constraints] σ
  = (Err (NameError "cached_data"), σ).
Proof. reflexivity. Qed.

Lemma get_problem_data_fails cfg get_sym_data get_matrix_data args σ :
  ∃ e, get_problem_data cfg get_sym_data get_matrix_data args σ = (Err e, σ) ∧
       (e = TypeError ∨ e = NameError "cached_data").
Proof.
  unfold get_problem_data. rewrite bind_lift. unfold bind_params.
  case_decide as Hlen; [|eauto].
  apply length_three in Hlen as (a & b & c & ->).
  exists (NameError "cached_data"). split; [reflexivity|by right].
Qed.

(** A call with four arguments never enters the body. *)
Lemma get_problem_data_four_args cfg get_sym_data get_matrix_data a b c d σ :
  get_problem_data cfg get_sym_data get_matrix_data [a; b; c; d] σ
  = (Err TypeError, σ).
Proof. reflexivity. Qed.

Lemma solve_fails cfg py_add get_sym_data get_matrix_data ecos_installed
    ecos_solve args σ :
  ∃ e, solve cfg py_add get_sym_data get_matrix_data ecos_installed ecos_solve
         args σ = (Err e, σ) ∧
       (e = TypeError ∨ e = ImportError).
Proof.
  unfold solve, solve_via. rewrite bind_lift. unfold bind_params.
  case_decide as Hlen; [|eauto].
  apply length_seven in Hlen as (a & b & c & d & e & f & g & ->).
  unfold import_ecos. destruct ecos_installed.
  - exists TypeError. split; [reflexivity|by left].
  - exists ImportError. split; [reflexivity|by right].
Qed.

(** C5. Every call of [get_problem_data] fails: a call with the three
    arguments of its signature raises the [NameError] of [cached_data], a
    name its body reads and nothing binds, and any other call does not get
    past the binding of its parameters. [solve], which passes [cached_data]
    as one more positional argument, therefore fails on every input, with
    the store and the log of solver invocations as it found them: the solver
    is never invoked and no result is returned. *)
Theorem get_problem_data_never_returns cfg py_add get_sym_data get_matrix_data
    ecos_installed ecos_solve :
  (∀ self objective constraints σ,
     get_problem_data cfg get_sym_data get_matrix_data
       [self; objective; constraints] σ
     = (Err (NameError "cached_data"), σ)) ∧
  (∀ args σ, ∃ e,
     get_problem_data cfg get_sym_data get_matrix_data args σ = (Err e, σ)) ∧
  (∀ self objective constraints cached_data warm_start verbose solver_opts σ,
     solve cfg py_add get_sym_data get_matrix_data true ecos_solve
       [self; objective; constraints; cached_data; warm_start; verbose;
        solver_opts] σ
     = (Err TypeError, σ)) ∧
  (∀ args σ, ∃ e,
     solve cfg py_add get_sym_data get_matrix_data ecos_installed ecos_solve
       args σ = (Err e, σ)).
Proof.
  split_and!.
  - intros. apply get_problem_data_NameError.
  - intros args σ.
    destruct (get_problem_data_fails cfg get_sym_data get_matrix_data args σ)
      as (e & He & _). eauto.
  - reflexivity.
  - intros args σ.
    destruct (solve_fails cfg py_add get_sym_data get_matrix_data
                ecos_installed ecos_solve args σ) as (e & He & _). eauto.
Qed.

(** ** Warm start *)

(** C9. The outcome of [solve] does not depend on the [warm_start] argument:
    with the objective, the constraints, the cached data, the verbosity flag
    and the solver options fixed, solving with [warm_start] true and with
    [warm_start] false gives the same result and the same final state,
    whatever method [self.get_problem_data] resolves to, the one of [ECOS]
    included. *)
Theorem warm_start_ignored cfg py_add get_sym_data get_matrix_data
    ecos_installed ecos_solve self objective constraints cached_data verbose
    solver_opts σ :
  (∀ method,
     solve_via cfg py_add ecos_installed ecos_solve method
       [self; objective; constraints; cached_data; VBool true; verbose;
        solver_opts] σ
     = solve_via cfg py_add ecos_installed ecos_solve method
       [self; objective; constraints; cached_data; VBool false; verbose;
        solver_opts] σ) ∧
  solve cfg py_add get_sym_data get_matrix_data ecos_installed ecos_solve
    [self; objective; constraints; cached_data; VBool true; verbose;
     solver_opts] σ
  = solve cfg py_add get_sym_data get_matrix_data ecos_installed ecos_solve
    [self; objective; constraints; cached_data; VBool false; verbose;
     solver_opts] σ.
Proof.
  assert (∀ method,
     solve_via cfg py_add ecos_installed ecos_solve method
       [self; objective; constraints; cached_data; VBool true; verbose;
        solver_opts] σ
     = solve_via cfg py_add ecos_installed ecos_solve method
       [self; objective; constraints; cached_data; VBool false; verbose;
        solver_opts] σ) as Hvia.
  { intros method. unfold solve_via. rewrite !bind_lift.
    unfold bind_params. simpl length. rewrite !decide_True by done.
    reflexivity. }
  split; [exact Hvia|apply Hvia].
Qed.

(** ** Constraint classes *)

(** C7 as the spec states it fails: on a problem whose only constraint is of
    the semidefinite class, outside the classes the solver handles,
    [get_problem_data] does not fail with UnsupportedConstraint. *)
Lemma unsupported_constraint_not_rejected :
  SDP_CAPABLE = false ∧
  ¬ ∃ e σ',
      get_problem_data sample_keys sample_get_sym_data sample_get_matrix_data
        [VObj 5; VObj 6; VList [VConstr SDP]] sample_state = (Err e, σ') ∧
      exn_name e = "UnsupportedConstraint".
Proof.
  split; [reflexivity|].
  intros (e & σ' & Hrun & Hname).
  rewrite get_problem_data_NameError in Hrun.
  injection Hrun as <- _. discriminate Hname.
Qed.

(** ** The statements that build the bundle *)

Lemma bind_ok {T U : Type} (c : M T) (f : T → M U) σ x σ1 :
  c σ = (Ok x, σ1) → (let! v := c in f v) σ = f x σ1.
Proof. unfold bind. by intros ->. Qed.

Lemma bind_err {T U : Type} (c : M T) (f : T → M U) σ e σ1 :
  c σ = (Err e, σ1) → (let! v := c in f v) σ = (Err e, σ1).
Proof. unfold bind. by intros ->. Qed.

Lemma noncvx_ignores_dims v1 v2 offsets sizes :
  _noncvx_id_to_idx v1 offsets sizes = _noncvx_id_to_idx v2 offsets sizes.
Proof. reflexivity. Qed.

Lemma sizes_known_expand k offsets sizes :
  sizes_known offsets sizes → ∃ l, expand_declared k offsets sizes = Ok l.
Proof.
  induction 1 as [|[var off] rest [size Hsize] _ [l IH]]; simpl; [eauto|].
  simpl in Hsize. rewrite Hsize, IH. simpl. case_decide; eauto.
Qed.

Lemma sizes_known_noncvx offsets sizes :
  sizes_known offsets sizes →
  ∃ indices, ∀ dims_dict,
    _noncvx_id_to_idx dims_dict offsets sizes = Ok indices.
Proof.
  intros Hknown. unfold _noncvx_id_to_idx.
  destruct (sizes_known_expand Boolean _ _ Hknown) as [bool_idx ->].
  destruct (sizes_known_expand Integer _ _ Hknown) as [int_idx ->].
  simpl. eauto.
Qed.

Lemma partitions_sizes_known start offsets sizes n :
  partitions start offsets sizes n → sizes_known offsets sizes.
Proof.
  revert start. induction offsets as [|[var off] rest IH]; intros start; simpl.
  - constructor.
  - intros (_ & size & Hsize & Hrest). constructor; [by eexists|by eapply IH].
Qed.

Lemma dict_copy_run σ l d :
  heap σ !! l = Some d →
  dict_copy l σ =
  (Ok (fresh (dom (heap σ))),
   State (<[fresh (dom (heap σ)) := d]> (heap σ)) (solver_calls σ)).
Proof. unfold dict_copy. by intros ->. Qed.

Lemma fresh_not_allocated σ : heap σ !! fresh (dom (heap σ)) = None.
Proof. apply not_elem_of_dom, is_fresh. Qed.

(** The run of lines 104 to 115 on a store that holds the upstream
    descriptor. *)
Lemma get_problem_data_body_run cfg sym_data matrix_data σ d :
  heap σ !! dims sym_data = Some d →
  let copy := fresh (dom (heap σ)) in
  let σ1 := State (<[copy := d]> (heap σ)) (solver_calls σ) in
  get_problem_data_body cfg sym_data matrix_data σ =
  match _noncvx_id_to_idx (VRef copy) (var_offsets sym_data)
          (var_sizes sym_data) with
  | Ok indices => (Ok (bundle cfg matrix_data copy indices), σ1)
  | Err e => (Err e, σ1)
  end.
Proof.
  intros Hd copy σ1. unfold get_problem_data_body, bundle, matrix_entries.
  destruct (get_objective matrix_data) as [c offset].
  destruct (get_eq_constr matrix_data) as [a b].
  destruct (get_ineq_constr matrix_data) as [g h]. cbn [fst snd].
  rewrite (bind_ok _ _ _ _ _ (dict_copy_run σ _ d Hd)).
  rewrite bind_lift. unfold dict_getitem at 1. rewrite lookup_insert_eq.
  rewrite bind_lift. fold copy.
  by destruct (_noncvx_id_to_idx _ _ _).
Qed.

Section bundle_keys.
Context (cfg : s.keys) (Hkeys : s.data_keys_distinct cfg).

Lemma data_keys_ne :
  s.DIMS cfg ≠ s.BOOL_IDX cfg ∧ s.DIMS cfg ≠ s.INT_IDX cfg ∧
  s.BOOL_IDX cfg ≠ s.INT_IDX cfg ∧
  s.OFFSET cfg ≠ s.A cfg ∧ s.OFFSET cfg ≠ s.B cfg ∧ s.OFFSET cfg ≠ s.G cfg ∧
  s.OFFSET cfg ≠ s.H cfg ∧ s.OFFSET cfg ≠ s.F cfg ∧
  s.OFFSET cfg ≠ s.DIMS cfg ∧ s.OFFSET cfg ≠ s.BOOL_IDX cfg ∧
  s.OFFSET cfg ≠ s.INT_IDX cfg.
Proof.
  pose proof Hkeys as H. unfold s.data_keys_distinct in H.
  repeat (apply NoDup_cons in H as [? H]).
  set_solver.
Qed.

Lemma bundle_lookup matrix_data copy indices :
  let data := bundle cfg matrix_data copy indices in
  data !! s.DIMS cfg = Some (VRef copy) ∧
  data !! s.BOOL_IDX cfg = Some (VIdx indices.1) ∧
  data !! s.INT_IDX cfg = Some (VIdx indices.2) ∧
  data !! s.OFFSET cfg = Some (get_objective matrix_data).2.
Proof.
  pose proof data_keys_ne as H. unfold bundle, matrix_entries.
  destruct_and!. split_and!; by simplify_map_eq.
Qed.

End bundle_keys.

(** C7, amended. [get_problem_data] performs no check of the constraint
    classes, the [accepts] predicate being commented out: it never fails
    with UnsupportedConstraint, and the statements that build the bundle
    raise no such exception either and return a bundle whenever the
    descriptor is in the store and every variable has a size, without
    reading the constraints. *)
Theorem no_constraint_class_check cfg get_sym_data get_matrix_data :
  (∀ args σ e σ',
     get_problem_data cfg get_sym_data get_matrix_data args σ = (Err e, σ') →
     exn_name e ≠ "UnsupportedConstraint") ∧
  (∀ sym_data matrix_data σ e σ',
     get_problem_data_body cfg sym_data matrix_data σ = (Err e, σ') →
     exn_name e ≠ "UnsupportedConstraint") ∧
  (∀ sym_data matrix_data σ d,
     heap σ !! dims sym_data = Some d →
     sizes_known (var_offsets sym_data) (var_sizes sym_data) →
     ∃ data σ',
       get_problem_data_body cfg sym_data matrix_data σ = (Ok data, σ')).
Proof.
  split_and!.
  - intros args σ e σ' Hrun.
    destruct (get_problem_data_fails cfg get_sym_data get_matrix_data args σ)
      as (e' & He' & Hcase).
    rewrite He' in Hrun. injection Hrun as <- _.
    by destruct Hcase as [-> | ->].
  - intros sym_data matrix_data σ e σ'.
    unfold get_problem_data_body.
    destruct (get_objective matrix_data), (get_eq_constr matrix_data),
      (get_ineq_constr matrix_data).
    unfold bind at 1, dict_copy.
    destruct (heap σ !! dims sym_data); [|by intros [= <- _]].
    rewrite bind_lift. unfold dict_getitem at 1. rewrite lookup_insert_eq.
    rewrite bind_lift. unfold _noncvx_id_to_idx, rbind.
    assert (∀ k offsets sizes e0,
              expand_declared k offsets sizes = Err e0 →
              exn_name e0 = "KeyError") as Hexp.
    { intros k offsets sizes. induction offsets as [|[var off] rest IH];
        intros e0; simpl; [done|].
      case_decide; [|by apply IH].
      destruct (sizes !! var_id var); [|by intros [= <-]].
      unfold rbind. destruct (expand_declared k rest sizes) eqn:Hrest;
        [done|]. intros [= <-]. by apply IH. }
    destruct (expand_declared Boolean _ _) eqn:Hb.
    + destruct (expand_declared Integer _ _) eqn:Hi; [done|].
      intros [= <- _]. by rewrite (Hexp _ _ _ _ Hi).
    + intros [= <- _]. by rewrite (Hexp _ _ _ _ Hb).
  - intros sym_data matrix_data σ d Hd Hknown.
    rewrite (get_problem_data_body_run cfg sym_data matrix_data σ d Hd).
    cbn zeta. destruct (sizes_known_noncvx _ _ Hknown) as [indices ->].
    eauto.
Qed.

Lemma no_constraint_class_check_witness :
  exn_name (NameError "cached_data") ≠ "UnsupportedConstraint".
Proof.
  apply (proj1 (no_constraint_class_check sample_keys sample_get_sym_data
                  sample_get_matrix_data)
           [VObj 5; VObj 6; VList [VConstr SDP]] sample_state
           (NameError "cached_data") sample_state).
  reflexivity.
Defined.

(** ** The cone-dimension descriptor *)

Lemma alias_exp_dim_run cfg data σ copy d count :
  data !! s.DIMS cfg = Some (VRef copy) →
  heap σ !! copy = Some d →
  d !! s.EXP_DIM cfg = Some count →
  alias_exp_dim cfg data σ =
  (Ok data, State (<[copy := <["e" := count]> d]> (heap σ)) (solver_calls σ)).
Proof.
  intros Hdims Hcopy Hcount. unfold alias_exp_dim.
  rewrite bind_lift. unfold dict_getitem at 1. rewrite Hdims.
  rewrite bind_getitem. unfold lookup_item, dict_getitem at 1.
  rewrite Hcopy, Hcount.
  rewrite bind_lift. unfold dict_getitem. rewrite Hdims.
  unfold setitem_in. by rewrite Hcopy.
Qed.

(** Line 143 writes to no object but the one [data[s.DIMS]] refers to. *)
Lemma alias_exp_dim_frame cfg data σ r σ' l :
  alias_exp_dim cfg data σ = (r, σ') →
  data !! s.DIMS cfg ≠ Some (VRef l) →
  heap σ' !! l = heap σ !! l.
Proof.
  unfold alias_exp_dim. rewrite bind_lift. unfold dict_getitem at 1.
  destruct (data !! s.DIMS cfg) as [target|] eqn:Hdims;
    [|by intros [= _ <-]].
  rewrite bind_getitem.
  destruct (lookup_item σ target (s.EXP_DIM cfg)); [|by intros [= _ <-]].
  rewrite bind_lift. unfold dict_getitem. rewrite Hdims.
  unfold setitem_in, ret, raise.
  destruct target; try by intros [= _ <-].
  destruct (heap σ !! l0); [|by intros [= _ <-]].
  intros [= _ <-] Hne. simpl. apply lookup_insert_ne. congruence.
Qed.

(** Lines 144 to 148 leave every object of the store as it is. *)
Lemma call_and_format_heap cfg py_add ecos_solve data cached_data verbose
    solver_opts σ r σ' :
  call_and_format cfg py_add ecos_solve data cached_data verbose solver_opts σ
    = (r, σ') →
  heap σ' = heap σ.
Proof.
  unfold call_and_format.
  repeat (rewrite bind_lift; destruct (dict_getitem data _);
          [|by intros [= _ <-]]).
  unfold bind at 1, keyword_args.
  destruct (deref σ solver_opts); try by intros [= _ <-].
  destruct (_ !! "verbose"); [by intros [= _ <-]|].
  unfold bind at 1. unfold bind at 1, call_solver.
  destruct (ecos_solve _ _); [|by intros [= _ <-]].
  intros Hrun. by apply format_results_state in Hrun as ->.
Qed.

(** On seven arguments and with the solver installed, [solve] with a
    [get_problem_data] that returns the bundle of lines 104 to 115 is build
    and solve. *)
Lemma solve_via_build_and_solve cfg py_add ecos_solve sym_data matrix_data
    self objective constraints cached_data warm_start verbose solver_opts σ :
  solve_via cfg py_add true ecos_solve
    (λ _, get_problem_data_body cfg sym_data matrix_data)
    [self; objective; constraints; cached_data; warm_start; verbose;
     solver_opts] σ
  = build_and_solve cfg py_add ecos_solve sym_data matrix_data cached_data
      verbose solver_opts σ.
Proof. reflexivity. Qed.


Lemma sample_data_keys_distinct : s.data_keys_distinct sample_keys.
Proof. apply (bool_decide_unpack _). by vm_compute. Qed.


(** ** The index lists of the discrete variables *)

Lemma partitions_le start offsets sizes n :
  partitions start offsets sizes n → start ≤ n.
Proof.
  revert start. induction offsets as [|[var off] rest IH]; intros start; simpl.
  - lia.
  - intros (-> & size & _ & Hrest). apply IH in Hrest. lia.
Qed.

Lemma StronglySorted_lt_NoDup (l : list nat) : StronglySorted lt l → NoDup l.
Proof.
  induction 1 as [|x l _ IH Hall]; constructor; [|done].
  intros Hx. rewrite Forall_forall in Hall. specialize (Hall x Hx). lia.
Qed.

Lemma StronglySorted_lt_seq start len : StronglySorted lt (seq start len).
Proof.
  revert start. induction len as [|len IH]; intros start; simpl;
    constructor; [apply IH|].
  apply Forall_forall. intros i Hi. apply elem_of_seq in Hi. lia.
Qed.

(** Under the layout invariant, the expansion of one kind succeeds, and its
    indices are increasing, within the slices, and as many as declared. *)
Lemma expand_declared_partitions k start offsets sizes n :
  partitions start offsets sizes n →
  ∃ l, expand_declared k offsets sizes = Ok l ∧
       StronglySorted lt l ∧
       (∀ i, i ∈ l → start ≤ i < n) ∧
       length l = declared_size k offsets sizes.
Proof.
  revert start. induction offsets as [|[var off] rest IH]; intros start; simpl.
  - intros _. exists []. split_and!; [done|constructor|set_solver|done].
  - intros (-> & size & Hsize & Hrest).
    pose proof (partitions_le _ _ _ _ Hrest) as Hle.
    destruct (IH _ Hrest) as (l & Hl & Hsorted & Hrange & Hlen).
    rewrite Hsize. case_decide.
    + rewrite Hl. simpl. exists (seq start size ++ l). split_and!.
      * done.
      * apply StronglySorted_app_2; [|apply StronglySorted_lt_seq|done].
        intros i j Hi Hj. apply elem_of_seq in Hi. apply Hrange in Hj. lia.
      * intros i [Hi|Hi]%elem_of_app.
        -- apply elem_of_seq in Hi. lia.
        -- apply Hrange in Hi. lia.
      * rewrite length_app, length_seq, Hlen. done.
    + exists l. split_and!; [done|done| |done].
      intros i Hi. apply Hrange in Hi. lia.
Qed.

(** The expansions of two different kinds share no index. *)
Lemma expand_declared_disjoint k1 k2 start offsets sizes n l1 l2 :
  k1 ≠ k2 →
  partitions start offsets sizes n →
  expand_declared k1 offsets sizes = Ok l1 →
  expand_declared k2 offsets sizes = Ok l2 →
  ∀ i, i ∈ l1 → i ∉ l2.
Proof.
  intros Hk. revert start l1 l2.
  induction offsets as [|[var off] rest IH]; intros start l1 l2; simpl.
  - intros _ [= <-] _. set_solver.
  - intros (-> & size & Hsize & Hrest). rewrite Hsize.
    destruct (expand_declared_partitions k1 _ _ _ _ Hrest)
      as (r1 & Hr1 & _ & Hrange1 & _).
    destruct (expand_declared_partitions k2 _ _ _ _ Hrest)
      as (r2 & Hr2 & _ & Hrange2 & _).
    rewrite Hr1, Hr2. simpl.
    pose proof (IH _ _ _ Hrest Hr1 Hr2) as Hdisj.
    repeat case_decide; try congruence; intros [= <-] [= <-] i.
    + intros [Hi|Hi]%elem_of_app; [|by apply Hdisj].
      apply elem_of_seq in Hi. intros Hi2%Hrange2. lia.
    + intros Hi. rewrite elem_of_app. intros [Hi2|Hi2]; [|by apply (Hdisj i)].
      apply elem_of_seq in Hi2. apply Hrange1 in Hi. lia.
    + by apply Hdisj.
Qed.



(** ** The model on the sample data *)

Example exit_flag_keys :
  STATUS_MAP_getitem (VInt 12) = Ok UNBOUNDED_INACCURATE ∧
  STATUS_MAP_getitem (VBool true) = Ok INFEASIBLE ∧
  STATUS_MAP_getitem (VFloat 10) = Ok OPTIMAL_INACCURATE ∧
  STATUS_MAP_getitem (VFloat 0.5) = Err (KeyError (VFloat 0.5)) ∧
  STATUS_MAP_getitem (VInt 3) = Err (KeyError (VInt 3)) ∧
  STATUS_MAP_getitem (VArr []) = Err TypeError.
Proof. split_and!; reflexivity. Qed.

Example format_results_optimal :
  format_results sample_keys float_add (sample_results 0) sample_data VNone
    empty_state
  = (Ok {[ "status" := VStatus OPTIMAL;
           "solve_time" := VFloat 1.5;
           "setup_time" := VFloat 0.25;
           "num_iters" := VInt 14;
           "value" := VFloat 7.5;
           "primal" := VArr [1; 2]%float;
           "eq_dual" := VArr [0.5]%float;
           "ineq_dual" := VArr [0; 3]%float ]},
     empty_state).
Proof. vm_compute. reflexivity. Qed.

Example format_results_infeasible :
  format_results sample_keys float_add (sample_results 1) sample_data VNone
    empty_state
  = (Ok {[ "status" := VStatus INFEASIBLE;
           "solve_time" := VFloat 1.5;
           "setup_time" := VFloat 0.25;
           "num_iters" := VInt 14 ]},
     empty_state).
Proof. vm_compute. reflexivity. Qed.

Example format_results_missing_timing :
  format_results sample_keys float_add
    (VDict {[ "info" := VDict {[ "exitFlag" := VInt 0 ]} ]}) sample_data VNone
    empty_state
  = (Err (KeyError (VStr "timing")), empty_state).
Proof. vm_compute. reflexivity. Qed.

Example bundle_of_sample :
  ∃ data σ',
    get_problem_data_body sample_keys sample_sym_data sample_matrix_data
      sample_state = (Ok data, σ') ∧
    data !! "dims" = Some (VRef 2%positive) ∧
    data !! "offset" = Some (VFloat 2.5) ∧
    data !! "bool_vars_idx" = Some (VIdx [0; 1]) ∧
    data !! "int_vars_idx" = Some (VIdx [5]).
Proof. eexists _, _. split_and!; vm_compute; reflexivity. Qed.

Example store_after_sample_run :
  heap sample_run.2
  = {[ 1%positive := sample_dims;
       2%positive := <["e" := VInt 2]> sample_dims ]} ∧
  length (solver_calls sample_run.2) = 1.
Proof. split; vm_compute; reflexivity. Qed.

Example solve_of_sample :
  solve sample_keys float_add sample_get_sym_data sample_get_matrix_data true
    sample_solver
    [VObj 5; VObj 6; VList [VConstr Eq; VConstr SOC]; VDict ∅; VBool false;
     VBool false; VDict ∅] sample_state
  = (Err TypeError, sample_state).
Proof. reflexivity. Qed.

(** * Further properties of [format_results] *)

Lemma STATUS_MAP_solution code st :
  STATUS_MAP !! code = Some st →
  st ∈ SOLUTION_PRESENT ↔ (code = 0 ∨ code = 10)%Z.
Proof.
  intros H. apply elem_of_list_to_map_2 in H.
  rewrite !elem_of_cons, elem_of_nil in H.
  unfold SOLUTION_PRESENT. rewrite !elem_of_cons, elem_of_nil.
  destruct_or!; simplify_eq; split; intros; destruct_or?; (done || lia || auto).
Qed.

Lemma diagnostics_dom cfg st tsolve tsetup iter :
  dom (diagnostics cfg st tsolve tsetup iter)
  = list_to_set (diagnostic_keys cfg).
Proof.
  unfold diagnostics, diagnostic_keys.
  rewrite !dom_insert_L, dom_empty_L. apply set_eq. intros k.
  rewrite !elem_of_union, elem_of_list_to_set, !elem_of_singleton,
    !elem_of_cons, elem_of_nil, elem_of_empty. tauto.
Qed.

Lemma with_solution_dom cfg base total x y z :
  dom (with_solution cfg base total x y z)
  = dom base ∪ list_to_set (solution_keys cfg).
Proof.
  unfold with_solution, solution_keys. rewrite !dom_insert_L.
  apply set_eq. intros k.
  rewrite !elem_of_union, elem_of_list_to_set, !elem_of_singleton,
    !elem_of_cons, elem_of_nil. tauto.
Qed.

(** The outcome of a run that has read the status and the diagnostics, as a
    value: the translation either stops at the diagnostics or reads the six
    pieces of the solution in order. *)
Lemma format_results_cases cfg py_add σ results_dict data cached_data nr σ' :
  s.result_keys_distinct cfg →
  format_results cfg py_add results_dict data cached_data σ = (Ok nr, σ') →
  ∃ info flag st timing tsolve tsetup iter,
    lookup_item σ results_dict "info" = Ok info ∧
    lookup_item σ info "exitFlag" = Ok flag ∧
    STATUS_MAP_getitem flag = Ok st ∧
    lookup_item σ info "timing" = Ok timing ∧
    lookup_item σ timing "tsolve" = Ok tsolve ∧
    lookup_item σ timing "tsetup" = Ok tsetup ∧
    lookup_item σ info "iter" = Ok iter ∧
    (((st ∉ SOLUTION_PRESENT) ∧ nr = diagnostics cfg st tsolve tsetup iter) ∨
     (st ∈ SOLUTION_PRESENT ∧ ∃ pcost offset total x y z,
        lookup_item σ info "pcost" = Ok pcost ∧
        lookup_item σ data (s.OFFSET cfg) = Ok offset ∧
        py_add pcost offset = Ok total ∧
        lookup_item σ results_dict "x" = Ok x ∧
        lookup_item σ results_dict "y" = Ok y ∧
        lookup_item σ results_dict "z" = Ok z ∧
        nr = with_solution cfg (diagnostics cfg st tsolve tsetup iter)
               total x y z)).
Proof.
  intros Hkeys Hrun.
  destruct (format_results_inv _ _ _ _ _ _ _ _ Hrun)
    as (info & flag & st & timing & tsolve & tsetup & iter & Hinfo & Hflag
        & Hst & Htiming & Htsolve & Htsetup & Hiter).
  exists info, flag, st, timing, tsolve, tsetup, iter.
  split_and!; try done. revert Hrun.
  rewrite (format_results_run cfg py_add Hkeys σ results_dict data
             cached_data info flag st timing tsolve tsetup iter) by done.
  cbn zeta. case_bool_decide as Hin.
  - destruct (lookup_item σ info "pcost") as [pcost|]; [|done].
    destruct (lookup_item σ data (s.OFFSET cfg)) as [offset|]; [|done].
    destruct (py_add pcost offset) as [total|] eqn:Hadd; [|done].
    destruct (lookup_item σ results_dict "x") as [x|]; [|done].
    destruct (lookup_item σ results_dict "y") as [y|]; [|done].
    destruct (lookup_item σ results_dict "z") as [z|]; [|done].
    intros [= <- _]. right. split; [done|].
    by exists pcost, offset, total, x, y, z.
  - intros [= <- _]. by left.
Qed.

(** X1. A result of [format_results] has the four diagnostic entries and
    nothing else when the status carries no solution, and those four and the
    four entries of the solution and nothing else when it does. *)
Theorem format_results_exact_keys cfg py_add σ σ' results_dict data
    cached_data new_results :
  s.result_keys_distinct cfg →
  format_results cfg py_add results_dict data cached_data σ
    = (Ok new_results, σ') →
  ∃ st,
    new_results !! s.STATUS cfg = Some (VStatus st) ∧
    dom new_results
    = list_to_set (diagnostic_keys cfg ++
                   if bool_decide (st ∈ SOLUTION_PRESENT)
                   then solution_keys cfg else []) ∧
    size new_results = if bool_decide (st ∈ SOLUTION_PRESENT) then 8 else 4.
Proof.
  intros Hkeys Hrun.
  destruct (format_results_cases _ _ _ _ _ _ _ _ Hkeys Hrun)
    as (info & flag & st & timing & tsolve & tsetup & iter & _ & _ & _ & _
        & _ & _ & _ & Hcase).
  exists st.
  assert (NoDup (diagnostic_keys cfg ++ solution_keys cfg)) as Hnodup
    by exact Hkeys.
  pose proof (diagnostic_keys_not_solution cfg Hkeys) as (Hs & _).
  destruct Hcase as [[Hout ->] | [Hin (pcost & offset & total & x & y & z
                                      & _ & _ & _ & _ & _ & _ & ->)]].
  - rewrite (bool_decide_eq_false_2 _ Hout), app_nil_r.
    split_and!.
    + by apply diagnostics_lookup.
    + apply diagnostics_dom.
    + rewrite <- size_dom, diagnostics_dom, size_list_to_set; [done|].
      by apply NoDup_app in Hnodup as (? & _).
  - rewrite (bool_decide_eq_true_2 _ Hin).
    split_and!.
    + rewrite (proj2 (proj2 (proj2 (proj2
                 (with_solution_lookup cfg Hkeys _ _ _ _ _))))) by done.
      by apply diagnostics_lookup.
    + rewrite with_solution_dom, diagnostics_dom, list_to_set_app_L. done.
    + rewrite <- size_dom, with_solution_dom, diagnostics_dom.
      rewrite <- list_to_set_app_L, size_list_to_set; done.
Qed.

Lemma format_results_exact_keys_witness :
  ∃ st,
    diagnostics sample_keys INFEASIBLE (VFloat 1.5) (VFloat 0.25) (VInt 14)
      !! "status" = Some (VStatus st) ∧
    dom (diagnostics sample_keys INFEASIBLE (VFloat 1.5) (VFloat 0.25)
           (VInt 14))
    = list_to_set (diagnostic_keys sample_keys ++
                   if bool_decide (st ∈ SOLUTION_PRESENT)
                   then solution_keys sample_keys else []) ∧
    size (diagnostics sample_keys INFEASIBLE (VFloat 1.5) (VFloat 0.25)
            (VInt 14))
    = if bool_decide (st ∈ SOLUTION_PRESENT) then 8 else 4.
Proof.
  apply (format_results_exact_keys sample_keys float_add empty_state
           empty_state (sample_results 1) sample_data VNone).
  - apply sample_keys_distinct.
  - reflexivity.
Defined.

(** X2. [format_results] returns a result exactly when the raw result has
    the [info] block with an exit flag that [STATUS_MAP] knows, both
    timings and the iteration count, and, if the status carries a solution,
    also the primal cost, the three vectors, and a bundle whose offset can
    be added to the cost. *)
Theorem format_results_returns_iff cfg py_add σ results_dict data cached_data :
  s.result_keys_distinct cfg →
  (∃ new_results σ',
     format_results cfg py_add results_dict data cached_data σ
       = (Ok new_results, σ'))
  ↔
  (∃ info flag st timing tsolve tsetup iter,
     lookup_item σ results_dict "info" = Ok info ∧
     lookup_item σ info "exitFlag" = Ok flag ∧
     STATUS_MAP_getitem flag = Ok st ∧
     lookup_item σ info "timing" = Ok timing ∧
     lookup_item σ timing "tsolve" = Ok tsolve ∧
     lookup_item σ timing "tsetup" = Ok tsetup ∧
     lookup_item σ info "iter" = Ok iter ∧
     (st ∈ SOLUTION_PRESENT →
      ∃ pcost offset total x y z,
        lookup_item σ info "pcost" = Ok pcost ∧
        lookup_item σ data (s.OFFSET cfg) = Ok offset ∧
        py_add pcost offset = Ok total ∧
        lookup_item σ results_dict "x" = Ok x ∧
        lookup_item σ results_dict "y" = Ok y ∧
        lookup_item σ results_dict "z" = Ok z)).
Proof.
  intros Hkeys. split.
  - intros (nr & σ' & Hrun).
    destruct (format_results_cases _ _ _ _ _ _ _ _ Hkeys Hrun)
      as (info & flag & st & timing & tsolve & tsetup & iter & ? & ? & ? & ?
          & ? & ? & ? & Hcase).
    exists info, flag, st, timing, tsolve, tsetup, iter.
    split_and!; try done. intros Hin.
    destruct Hcase as [[Hout _] | [_ (pcost & offset & total & x & y & z
                                      & ? & ? & ? & ? & ? & ? & _)]];
      [done|].
    by exists pcost, offset, total, x, y, z.
  - intros (info & flag & st & timing & tsolve & tsetup & iter & Hinfo
            & Hflag & Hst & Htiming & Htsolve & Htsetup & Hiter & Hsol).
    rewrite (format_results_run cfg py_add Hkeys σ results_dict data
               cached_data info flag st timing tsolve tsetup iter) by done.
    cbn zeta. case_bool_decide as Hin; [|eauto].
    destruct (Hsol Hin) as (pcost & offset & total & x & y & z & -> & -> & ->
                            & -> & -> & ->).
    eauto.
Qed.

Lemma format_results_returns_iff_witness :
  (∃ new_results σ',
     format_results sample_keys no_add (bare_results 2) VNone VNone
       empty_state = (Ok new_results, σ'))
  ↔
  (∃ info flag st timing tsolve tsetup iter,
     lookup_item empty_state (bare_results 2) "info" = Ok info ∧
     lookup_item empty_state info "exitFlag" = Ok flag ∧
     STATUS_MAP_getitem flag = Ok st ∧
     lookup_item empty_state info "timing" = Ok timing ∧
     lookup_item empty_state timing "tsolve" = Ok tsolve ∧
     lookup_item empty_state timing "tsetup" = Ok tsetup ∧
     lookup_item empty_state info "iter" = Ok iter ∧
     (st ∈ SOLUTION_PRESENT →
      ∃ pcost offset total x y z,
        lookup_item empty_state info "pcost" = Ok pcost ∧
        lookup_item empty_state VNone (s.OFFSET sample_keys) = Ok offset ∧
        no_add pcost offset = Ok total ∧
        lookup_item empty_state (bare_results 2) "x" = Ok x ∧
        lookup_item empty_state (bare_results 2) "y" = Ok y ∧
        lookup_item empty_state (bare_results 2) "z" = Ok z)).
Proof.
  apply (format_results_returns_iff sample_keys no_add empty_state
           (bare_results 2) VNone VNone).
  apply sample_keys_distinct.
Defined.

(** X3. When the exit flag maps to a status without a solution, the
    translation needs nothing but the exit flag, the timings and the
    iteration count: it returns the four diagnostics whatever the bundle is
    and whether or not the raw result has a primal cost and vectors, and the
    addition is never attempted. *)
Theorem format_results_without_solution cfg py_add σ results_dict data
    cached_data info flag st timing tsolve tsetup iter :
  s.result_keys_distinct cfg →
  lookup_item σ results_dict "info" = Ok info →
  lookup_item σ info "exitFlag" = Ok flag →
  STATUS_MAP_getitem flag = Ok st →
  st ∉ SOLUTION_PRESENT →
  lookup_item σ info "timing" = Ok timing →
  lookup_item σ timing "tsolve" = Ok tsolve →
  lookup_item σ timing "tsetup" = Ok tsetup →
  lookup_item σ info "iter" = Ok iter →
  format_results cfg py_add results_dict data cached_data σ
  = (Ok (diagnostics cfg st tsolve tsetup iter), σ).
Proof.
  intros Hkeys Hinfo Hflag Hst Hout Htiming Htsolve Htsetup Hiter.
  rewrite (format_results_run cfg py_add Hkeys σ results_dict data
             cached_data info flag st timing tsolve tsetup iter) by done.
  cbn zeta. by rewrite (bool_decide_eq_false_2 _ Hout).
Qed.

Lemma format_results_without_solution_witness :
  format_results sample_keys no_add (bare_results (-3)) VNone VNone
    empty_state
  = (Ok (diagnostics sample_keys SOLVER_ERROR (VFloat 0.5) (VFloat 0.25)
           (VInt 3)), empty_state).
Proof.
  apply (format_results_without_solution sample_keys no_add empty_state
           (bare_results (-3)) VNone VNone
           (VDict {[ "exitFlag" := VInt (-3); "iter" := VInt 3;
                     "timing" := VDict {[ "tsetup" := VFloat 0.25;
                                          "tsolve" := VFloat 0.5 ]} ]})
           (VInt (-3)) SOLVER_ERROR
           (VDict {[ "tsetup" := VFloat 0.25; "tsolve" := VFloat 0.5 ]})
           (VFloat 0.5) (VFloat 0.25) (VInt 3)).
  - apply sample_keys_distinct.
  - reflexivity.
  - reflexivity.
  - reflexivity.
  - by apply (bool_decide_eq_false_1 _).
  - reflexivity.
  - reflexivity.
  - reflexivity.
  - reflexivity.
Defined.

(** X4. When the status carries a solution and the offset correction cannot
    be computed, because the bundle cannot be read at [s.OFFSET] or because
    the addition raises, [format_results] fails with that very exception:
    it never returns the uncorrected cost or a result without a value. *)
Theorem format_results_offset_failure cfg py_add σ results_dict data
    cached_data info flag st timing tsolve tsetup iter pcost e :
  s.result_keys_distinct cfg →
  lookup_item σ results_dict "info" = Ok info →
  lookup_item σ info "exitFlag" = Ok flag →
  STATUS_MAP_getitem flag = Ok st →
  st ∈ SOLUTION_PRESENT →
  lookup_item σ info "timing" = Ok timing →
  lookup_item σ timing "tsolve" = Ok tsolve →
  lookup_item σ timing "tsetup" = Ok tsetup →
  lookup_item σ info "iter" = Ok iter →
  lookup_item σ info "pcost" = Ok pcost →
  (lookup_item σ data (s.OFFSET cfg) = Err e ∨
   ∃ offset, lookup_item σ data (s.OFFSET cfg) = Ok offset ∧
             py_add pcost offset = Err e) →
  format_results cfg py_add results_dict data cached_data σ = (Err e, σ).
Proof.
  intros Hkeys Hinfo Hflag Hst Hin Htiming Htsolve Htsetup Hiter Hpcost Hfail.
  rewrite (format_results_run cfg py_add Hkeys σ results_dict data
             cached_data info flag st timing tsolve tsetup iter) by done.
  cbn zeta. rewrite (bool_decide_eq_true_2 _ Hin), Hpcost.
  destruct Hfail as [-> | (offset & -> & ->)]; reflexivity.
Qed.

Lemma format_results_offset_failure_witness :
  format_results sample_keys float_add (sample_results 0) (VDict ∅) VNone
    empty_state
  = (Err (KeyError (VStr "offset")), empty_state).
Proof.
  apply (format_results_offset_failure sample_keys float_add empty_state
           (sample_results 0) (VDict ∅) VNone
           (VDict {[ "exitFlag" := VInt 0; "pcost" := VFloat 5;
                     "iter" := VInt 14;
                     "timing" := VDict {[ "tsetup" := VFloat 0.25;
                                          "tsolve" := VFloat 1.5 ]} ]})
           (VInt 0) OPTIMAL
           (VDict {[ "tsetup" := VFloat 0.25; "tsolve" := VFloat 1.5 ]})
           (VFloat 1.5) (VFloat 0.25) (VInt 14) (VFloat 5)).
  - apply sample_keys_distinct.
  - reflexivity.
  - reflexivity.
  - reflexivity.
  - by apply (bool_decide_unpack _).
  - reflexivity.
  - reflexivity.
  - reflexivity.
  - reflexivity.
  - reflexivity.
  - left. reflexivity.
Defined.

(** X5. [format_results] only reads: whatever it returns or raises, the
    dictionary objects of the store are as before and no solver invocation
    is recorded. *)
Theorem format_results_reads_only cfg py_add results_dict data cached_data
    σ r σ' :
  format_results cfg py_add results_dict data cached_data σ = (r, σ') →
  heap σ' = heap σ ∧ solver_calls σ' = solver_calls σ.
Proof. intros Hrun. by apply format_results_state in Hrun as ->. Qed.

Lemma format_results_reads_only_witness :
  heap (format_results sample_keys float_add (sample_results 0) sample_data
          VNone sample_state).2 = heap sample_state ∧
  solver_calls (format_results sample_keys float_add (sample_results 0)
                  sample_data VNone sample_state).2
  = solver_calls sample_state.
Proof.
  apply (format_results_reads_only sample_keys float_add (sample_results 0)
           sample_data VNone sample_state
           (format_results sample_keys float_add (sample_results 0)
              sample_data VNone sample_state).1).
  apply surjective_pairing.
Defined.

(** X6. With an integer exit flag, a result of [format_results] carries the
    optimal value and the three vectors exactly when the exit code is 0 or
    10, the codes of ECOS_OPTIMAL and of its inaccurate variant. *)
Theorem solution_iff_exit_code_0_or_10 cfg py_add σ σ' results_dict data
    cached_data info code new_results :
  s.result_keys_distinct cfg →
  lookup_item σ results_dict "info" = Ok info →
  lookup_item σ info "exitFlag" = Ok (VInt code) →
  format_results cfg py_add results_dict data cached_data σ
    = (Ok new_results, σ') →
  ∀ k, k ∈ solution_keys cfg →
    is_Some (new_results !! k) ↔ (code = 0 ∨ code = 10)%Z.
Proof.
  intros Hkeys Hinfo Hflag Hrun k Hk.
  destruct (format_results_cases _ _ _ _ _ _ _ _ Hkeys Hrun)
    as (info' & flag & st & timing & tsolve & tsetup & iter & Hinfo' & Hflag'
        & Hst & _ & _ & _ & _ & Hcase).
  rewrite Hinfo in Hinfo'. injection Hinfo' as <-.
  rewrite Hflag in Hflag'. injection Hflag' as <-.
  assert (STATUS_MAP !! code = Some st) as Hmap.
  { revert Hst. unfold STATUS_MAP_getitem. simpl.
    destruct (STATUS_MAP !! code); by intros [= ->]. }
  rewrite <- (STATUS_MAP_solution _ _ Hmap).
  destruct Hcase as [[Hout ->] | [Hin (pcost & offset & total & x & y & z
                                      & _ & _ & _ & _ & _ & _ & ->)]].
  - pose proof (diagnostics_lookup cfg Hkeys st tsolve tsetup iter)
      as (_ & _ & _ & _ & Hnone).
    rewrite (Hnone k Hk). split; [by intros [? ?]|done].
  - split; [done|]. intros _. by apply with_solution_present.
Qed.

Lemma solution_iff_exit_code_0_or_10_witness :
  is_Some (diagnostics sample_keys UNBOUNDED_INACCURATE (VFloat 1.5)
             (VFloat 0.25) (VInt 14) !! "value")
  ↔ (12 = 0 ∨ 12 = 10)%Z.
Proof.
  apply (solution_iff_exit_code_0_or_10 sample_keys float_add empty_state
           empty_state (sample_results 12) sample_data VNone
           (VDict {[ "exitFlag" := VInt 12; "pcost" := VFloat 5;
                     "iter" := VInt 14;
                     "timing" := VDict {[ "tsetup" := VFloat 0.25;
                                          "tsolve" := VFloat 1.5 ]} ]}) 12).
  - apply sample_keys_distinct.
  - reflexivity.
  - reflexivity.
  - reflexivity.
  - by apply (bool_decide_unpack _).
Defined.

(** * Further properties of build and solve *)

Section bundle_entries.
Context (cfg : s.keys) (Hkeys : s.data_keys_distinct cfg).

Lemma bundle_matrix_lookup matrix_data copy indices :
  let data := bundle cfg matrix_data copy indices in
  data !! s.C cfg = Some (get_objective matrix_data).1 ∧
  data !! s.OFFSET cfg = Some (get_objective matrix_data).2 ∧
  data !! s.A cfg = Some (get_eq_constr matrix_data).1 ∧
  data !! s.B cfg = Some (get_eq_constr matrix_data).2 ∧
  data !! s.G cfg = Some (get_ineq_constr matrix_data).1 ∧
  data !! s.H cfg = Some (get_ineq_constr matrix_data).2 ∧
  data !! s.F cfg = Some (get_nonlin_constr matrix_data).
Proof.
  pose proof Hkeys as H. unfold s.data_keys_distinct in H.
  repeat (apply NoDup_cons in H as [? H]).
  repeat match goal with
         | Hn : _ ∉ _ :: _ |- _ => apply not_elem_of_cons in Hn as [? ?]
         end.
  unfold bundle, matrix_entries.
  split_and!; by simplify_map_eq.
Qed.

Lemma bundle_dom matrix_data copy indices :
  dom (bundle cfg matrix_data copy indices) = list_to_set (data_keys cfg).
Proof.
  unfold bundle, matrix_entries, data_keys.
  rewrite !dom_insert_L, dom_empty_L. apply set_eq. intros k.
  rewrite !elem_of_union, elem_of_list_to_set, !elem_of_singleton,
    !elem_of_cons, elem_of_nil, elem_of_empty. tauto.
Qed.

End bundle_entries.

(** With the descriptor in the store, its exponential-cone count present and
    every variable sized, build and line 143 succeed, and what is left of
    build and solve is the solver call on the bundle, in the store where the
    copy carries the alias. *)
Lemma build_and_solve_to_call cfg py_add ecos_solve sym_data matrix_data
    cached_data verbose solver_opts σ d count :
  s.data_keys_distinct cfg →
  heap σ !! dims sym_data = Some d →
  d !! s.EXP_DIM cfg = Some count →
  sizes_known (var_offsets sym_data) (var_sizes sym_data) →
  ∃ indices,
    build_and_solve cfg py_add ecos_solve sym_data matrix_data cached_data
      verbose solver_opts σ
    = call_and_format cfg py_add ecos_solve
        (bundle cfg matrix_data (fresh (dom (heap σ))) indices)
        cached_data verbose solver_opts
        (aliased_state σ (fresh (dom (heap σ))) d count).
Proof.
  intros Hkeys Hd Hcount Hknown.
  destruct (sizes_known_noncvx _ _ Hknown) as [indices Hidx].
  exists indices. set (copy := fresh (dom (heap σ))).
  pose proof (get_problem_data_body_run cfg sym_data matrix_data σ d Hd)
    as Hbody. cbn zeta in Hbody. fold copy in Hbody. rewrite Hidx in Hbody.
  pose proof (bundle_lookup cfg Hkeys matrix_data copy indices) as (Hdims & _).
  unfold build_and_solve.
  rewrite (bind_ok _ _ _ _ _ Hbody).
  erewrite bind_ok.
  2:{ apply alias_exp_dim_run with (d := d); [done| |done].
      simpl. apply lookup_insert_eq. }
  unfold aliased_state. simpl. by rewrite insert_insert_eq.
Qed.

(** The solver call of lines 144 to 147 on a bundle of [get_problem_data]:
    the positional arguments are [c], [G], [h], the descriptor, [A] and [b],
    in this order. *)
Lemma call_and_format_run cfg py_add ecos_solve matrix_data copy indices
    cached_data verbose opts σ d :
  s.data_keys_distinct cfg →
  heap σ !! copy = Some d →
  opts !! "verbose" = None →
  call_and_format cfg py_add ecos_solve (bundle cfg matrix_data copy indices)
    cached_data verbose (VDict opts) σ
  = let args := [(get_objective matrix_data).1;
                 (get_ineq_constr matrix_data).1;
                 (get_ineq_constr matrix_data).2;
                 VDict d;
                 (get_eq_constr matrix_data).1;
                 (get_eq_constr matrix_data).2] in
    let kwargs := <["verbose" := verbose]> opts in
    let σ' := State (heap σ) (solver_calls σ ++ [SolverCall args kwargs]) in
    match ecos_solve args kwargs with
    | Ok results_dict =>
        format_results cfg py_add results_dict
          (VDict (bundle cfg matrix_data copy indices)) cached_data σ'
    | Err e => (Err e, σ')
    end.
Proof.
  intros Hkeys Hcopy Hverbose.
  pose proof (bundle_matrix_lookup cfg Hkeys matrix_data copy indices)
    as (Hc & _ & Ha & Hb & Hg & Hh & _).
  pose proof (bundle_lookup cfg Hkeys matrix_data copy indices) as (Hdims & _).
  cbn zeta in *. unfold call_and_format.
  rewrite !bind_lift. unfold dict_getitem.
  rewrite Hc. rewrite bind_lift, Hg. rewrite bind_lift, Hh.
  rewrite bind_lift, Hdims. rewrite bind_lift, Ha. rewrite bind_lift, Hb.
  unfold bind at 1, keyword_args. cbn [deref]. rewrite Hverbose.
  unfold bind at 1. cbn [deref]. rewrite Hcopy.
  unfold bind at 1, call_solver.
  by destruct (ecos_solve _ _).
Qed.



Lemma sample_sizes_known :
  sizes_known (var_offsets sample_sym_data) (var_sizes sample_sym_data).
Proof.
  apply (partitions_sizes_known 0 _ _ 6). simpl.
  split; [done|]. exists 2. split; [reflexivity|].
  split; [done|]. exists 3. split; [reflexivity|].
  split; [done|]. exists 1. split; [reflexivity|]. done.
Qed.













(** * Further properties of [solve] and [import_solver] *)

Lemma solve_via_wrong_arity cfg py_add ecos_installed ecos_solve method
    args σ :
  length args ≠ 7 →
  solve_via cfg py_add ecos_installed ecos_solve method args σ
  = (Err TypeError, σ).
Proof.
  intros Hlen. unfold solve_via. rewrite bind_lift. unfold bind_params.
  rewrite decide_False by (simpl; congruence). done.
Qed.

Lemma solve_via_without_ecos cfg py_add ecos_solve method args σ :
  length args = 7 →
  solve_via cfg py_add false ecos_solve method args σ = (Err ImportError, σ).
Proof.
  intros Hlen. symmetry in Hlen.
  apply length_seven in Hlen as (a & b & c & d & e & f & g & ->).
  reflexivity.
Qed.

(** X14. [solve] fails before [get_problem_data] is called, whatever method
    that is, when it is not given its seven arguments (a [TypeError]) and
    when the ecos module cannot be imported (an [ImportError]); the store
    and the log of solver invocations are as before. *)
Theorem solve_fails_before_building cfg py_add ecos_installed ecos_solve
    method args σ :
  (length args ≠ 7 →
   solve_via cfg py_add ecos_installed ecos_solve method args σ
   = (Err TypeError, σ)) ∧
  (length args = 7 →
   solve_via cfg py_add false ecos_solve method args σ
   = (Err ImportError, σ)).
Proof.
  split; intros Hlen.
  - by apply solve_via_wrong_arity.
  - by apply solve_via_without_ecos.
Qed.

Lemma solve_fails_before_building_witness :
  solve_via sample_keys float_add true sample_solver failing_method
    [VObj 5; VObj 6] sample_state
  = (Err TypeError, sample_state).
Proof.
  apply (proj1 (solve_fails_before_building sample_keys float_add true
                  sample_solver failing_method [VObj 5; VObj 6] sample_state)).
  simpl. lia.
Defined.

(** X15. [import_solver] tells how [solve] fares at its own import: it
    leaves the store alone; when it returns, [solve] gets past the import
    and behaves as with the module at hand; when it raises, the exception is
    an [ImportError], and [solve] raises it too on any seven arguments. *)
Theorem import_solver_agrees_with_solve cfg py_add ecos_installed ecos_solve
    self τ r τ' :
  import_solver ecos_installed [self] τ = (r, τ') →
  τ' = τ ∧
  ((r = Ok VNone ∧
    ∀ method args σ,
      solve_via cfg py_add ecos_installed ecos_solve method args σ
      = solve_via cfg py_add true ecos_solve method args σ) ∨
   (r = Err ImportError ∧
    ∀ method args σ, length args = 7 →
      solve_via cfg py_add ecos_installed ecos_solve method args σ
      = (Err ImportError, σ))).
Proof.
  destruct ecos_installed; intros [= <- <-]; (split; [done|]).
  - left. done.
  - right. split; [done|]. intros method args σ Hlen.
    by apply solve_via_without_ecos.
Qed.

Lemma import_solver_agrees_with_solve_witness :
  sample_state = sample_state ∧
  ((Err ImportError = Ok VNone ∧
    ∀ method args σ,
      solve_via sample_keys float_add false sample_solver method args σ
      = solve_via sample_keys float_add true sample_solver method args σ) ∨
   (@Err value ImportError = Err ImportError ∧
    ∀ method args σ, length args = 7 →
      solve_via sample_keys float_add false sample_solver method args σ
      = (Err ImportError, σ))).
Proof.
  apply (import_solver_agrees_with_solve sample_keys float_add false
           sample_solver (VObj 5) sample_state (Err ImportError)
           sample_state).
  reflexivity.
Defined.

(** X16. An exception raised by [self.get_problem_data] is the exception of
    [solve]: line 143 is not reached, the solver is not invoked, and the
    state is the one the method left. *)
Theorem method_exception_propagates cfg py_add ecos_solve method
    self objective constraints cached_data warm_start verbose solver_opts
    σ e σ1 :
  method [self; objective; constraints; cached_data] σ = (Err e, σ1) →
  solve_via cfg py_add true ecos_solve method
    [self; objective; constraints; cached_data; warm_start; verbose;
     solver_opts] σ
  = (Err e, σ1).
Proof.
  intros Hmethod. unfold solve_via.
  rewrite bind_lift. unfold bind_params. simpl length.
  rewrite decide_True by done.
  unfold import_ecos. unfold bind at 1, ret.
  rewrite !bind_lift.
  change (load_name _ "self") with (Ok self).
  change (load_name _ "objective") with (Ok objective).
  change (load_name _ "constraints") with (Ok constraints).
  change (load_name _ "cached_data") with (Ok cached_data).
  cbn beta iota. rewrite !bind_lift. cbn beta iota.
  by apply bind_err.
Qed.

Lemma method_exception_propagates_witness :
  solve_via sample_keys float_add true sample_solver failing_method
    [VObj 5; VObj 6; VList []; VDict ∅; VBool false; VBool false; VDict ∅]
    sample_state
  = (Err (Raised "SolverError"), sample_state).
Proof.
  apply (method_exception_propagates sample_keys float_add sample_solver
           failing_method (VObj 5) (VObj 6) (VList []) (VDict ∅)
           (VBool false) (VBool false) (VDict ∅) sample_state
           (Raised "SolverError") sample_state).
  reflexivity.
Defined.

Lemma get_problem_data_body_log cfg sym_data matrix_data σ r σ' :
  get_problem_data_body cfg sym_data matrix_data σ = (r, σ') →
  solver_calls σ' = solver_calls σ.
Proof.
  unfold get_problem_data_body.
  destruct (get_objective matrix_data), (get_eq_constr matrix_data),
    (get_ineq_constr matrix_data).
  unfold bind at 1, dict_copy.
  destruct (heap σ !! dims sym_data); [|by intros [= _ <-]].
  rewrite bind_lift. destruct (dict_getitem _ _); [|by intros [= _ <-]].
  rewrite bind_lift. destruct (_noncvx_id_to_idx _ _ _); by intros [= _ <-].
Qed.

Lemma alias_exp_dim_log cfg data σ r σ' :
  alias_exp_dim cfg data σ = (r, σ') → solver_calls σ' = solver_calls σ.
Proof.
  unfold alias_exp_dim. rewrite bind_lift.
  destruct (dict_getitem data (s.DIMS cfg)) as [target|] eqn:Hdims;
    [|by intros [= _ <-]].
  rewrite bind_getitem.
  destruct (lookup_item σ target (s.EXP_DIM cfg)); [|by intros [= _ <-]].
  rewrite bind_lift.
  unfold setitem_in, ret, raise.
  destruct target; try by intros [= _ <-].
  destruct (heap σ !! l); by intros [= _ <-].
Qed.

Lemma call_and_format_log cfg py_add ecos_solve data cached_data verbose
    solver_opts σ r σ' :
  call_and_format cfg py_add ecos_solve data cached_data verbose solver_opts σ
    = (r, σ') →
  solver_calls σ' = solver_calls σ ∨
  ∃ call, solver_calls σ' = solver_calls σ ++ [call].
Proof.
  unfold call_and_format.
  repeat (rewrite bind_lift; destruct (dict_getitem data _);
          [|intros [= _ <-]; by left]).
  unfold bind at 1, keyword_args.
  destruct (deref σ solver_opts); try (intros [= _ <-]; by left).
  destruct (_ !! "verbose"); [intros [= _ <-]; by left|].
  unfold bind at 1. unfold bind at 1, call_solver.
  destruct (ecos_solve _ _).
  - intros Hrun. apply format_results_state in Hrun as ->. right. by eexists.
  - intros [= _ <-]. right. by eexists.
Qed.


